(** * Agents API Python clients: a shallow embedding and its properties

    The repository holds two Python packages that wrap the Kubernetes
    [CustomObjectsApi] for the Sandbox, SandboxSet and SandboxClaim custom
    resources:

    - [agents_api_client] ([base_client.py], [sandbox_client.py],
      [sandboxset_client.py]): a base client with per-call namespace
      override, a watch generator and a wait-for-condition loop, specialised
      per resource with 404 translation;
    - [openkruise.agents] ([sandbox_client.py], [sandboxset_client.py],
      [sandbox_claim_client.py]): typed clients that take a model object,
      stamp [apiVersion]/[kind] on it and send its dump.

    Python values are embedded as an inductive type, exceptions as a sum
    type, and the [CustomObjectsApi] handle as an oracle whose calls are
    logged, the way the unit tests observe the clients through a mock. *)

From Stdlib Require Import String Ascii List ZArith QArith Bool Lia.
Import ListNotations.
Local Open Scope string_scope.
Local Set Warnings "-register-all".

(** ** Python values *)

(** JSON-like Python values, as decoded from the API server or built by the
    clients.  Dictionaries are association lists whose keys are strings; the
    first binding of a key is the one a lookup sees.  Tuples are kept apart
    from lists because the typed clients build some. *)
Inductive pyval : Type :=
| PyNone
| PyBool (b : bool)
| PyInt (n : Z)
| PyStr (s : string)
| PyList (items : list pyval)
| PyTuple (items : list pyval)
| PyDict (entries : list (string * pyval)).

(** A Python [dict] with string keys. *)
Definition dict := list (string * pyval).

(** Exceptions the clients raise or let through. *)
Inductive exn : Type :=
| ApiException (status : option Z) (reason : string)
| TransportFailure (detail : string)
| SandboxNotFoundException (msg : string)
| SandboxSetNotFoundException (msg : string)
| TimeoutError (msg : string)
| KeyError (key : string)
| TypeError
| AttributeError.

Inductive result (A : Type) : Type :=
| Ok (a : A)
| Raise (e : exn).
Arguments Ok {A} a.
Arguments Raise {A} e.

Definition bind {A B : Type} (r : result A) (k : A -> result B) : result B :=
  match r with
  | Ok a => k a
  | Raise e => Raise e
  end.

Notation "x <- r ;; k" := (bind r (fun x => k))
  (at level 61, r at next level, right associativity).

(** [d.get(key)] on a dict: the first binding of [key]. *)
Fixpoint dict_lookup (d : dict) (key : string) : option pyval :=
  match d with
  | [] => None
  | (k, v) :: rest => if String.eqb k key then Some v else dict_lookup rest key
  end.

(** [key in d] on a dict. *)
Definition dict_mem (d : dict) (key : string) : bool :=
  match dict_lookup d key with
  | Some _ => true
  | None => false
  end.

(** [d[key]] on a dict: [KeyError] when the key is missing. *)
Definition dict_getitem (d : dict) (key : string) : result pyval :=
  match dict_lookup d key with
  | Some v => Ok v
  | None => Raise (KeyError key)
  end.

(** [d.get(key, default)] on a dict. *)
Definition dict_get (d : dict) (key : string) (default : pyval) : pyval :=
  match dict_lookup d key with
  | Some v => v
  | None => default
  end.

(** [v == s] for a string literal [s]: only an equal [str] compares equal. *)
Definition py_eq_str (v : pyval) (s : string) : bool :=
  match v with
  | PyStr s' => String.eqb s' s
  | _ => false
  end.

(** [needle in hay] on two strings: substring test. *)
Fixpoint is_substring (needle hay : string) : bool :=
  String.prefix needle hay
  || match hay with
     | EmptyString => false
     | String _ rest => is_substring needle rest
     end.

(** [key in v] for a string [key] and any value [v]. *)
Definition py_contains (key : string) (v : pyval) : result bool :=
  match v with
  | PyDict d => Ok (dict_mem d key)
  | PyStr s => Ok (is_substring key s)
  | PyList l | PyTuple l => Ok (existsb (fun x => py_eq_str x key) l)
  | PyNone | PyBool _ | PyInt _ => Raise TypeError
  end.

(** [v[key]] for a string [key]: only a dict can be indexed by a string. *)
Definition py_getitem (v : pyval) (key : string) : result pyval :=
  match v with
  | PyDict d => dict_getitem d key
  | _ => Raise TypeError
  end.

(** [v.get(key, default)]: only a dict has the method. *)
Definition py_get (v : pyval) (key : string) (default : pyval) : result pyval :=
  match v with
  | PyDict d => Ok (dict_get d key default)
  | _ => Raise AttributeError
  end.

(** The items a [for] loop over [v] visits. *)
Definition py_iter (v : pyval) : result (list pyval) :=
  match v with
  | PyList l | PyTuple l => Ok l
  | PyDict d => Ok (map (fun kv => PyStr (fst kv)) d)
  | PyStr s => Ok (map (fun c => PyStr (String c EmptyString)) (list_ascii_of_string s))
  | PyNone | PyBool _ | PyInt _ => Raise TypeError
  end.

(** [e.status == code] on the status of an [ApiException], which is an
    integer or [None]. *)
Definition status_is (status : option Z) (code : Z) : bool :=
  match status with
  | Some s => Z.eqb s code
  | None => false
  end.

(** [a or b] where [a] is an optional string: [None] and the empty string
    are falsy. *)
Definition py_or (a : option string) (b : string) : string :=
  match a with
  | Some s => if String.eqb s "" then b else s
  | None => b
  end.

(** ** The [CustomObjectsApi] handle *)

(** [client.V1DeleteOptions()], of which the clients set one field. *)
Record V1DeleteOptions : Type := { grace_period_seconds : option Z }.

(** One call on the [CustomObjectsApi] handle with its keyword arguments.
    [watch_stream] is [watch.Watch().stream(list_namespaced_custom_object, ...)].
    An optional keyword that the caller leaves out is [None]. *)
Inductive request : Type :=
| create_namespaced_custom_object
    (group version namespace plural : string) (body : pyval)
| get_namespaced_custom_object
    (group version namespace plural name : string)
| patch_namespaced_custom_object
    (group version namespace plural name : string) (body : pyval)
    (content_type : option string)
| patch_namespaced_custom_object_status
    (group version namespace plural name : string) (body : pyval)
| delete_namespaced_custom_object
    (group version namespace plural name : string) (body : V1DeleteOptions)
| list_namespaced_custom_object
    (group version namespace plural : string)
    (label_selector field_selector : option string)
| delete_collection_namespaced_custom_object
    (group version namespace plural : string)
    (label_selector field_selector : option string)
| watch_stream
    (group version namespace plural : string)
    (label_selector field_selector : option string)
    (timeout_seconds : option Z).

(** The namespace a request targets. *)
Definition request_namespace (r : request) : string :=
  match r with
  | create_namespaced_custom_object _ _ ns _ _ => ns
  | get_namespaced_custom_object _ _ ns _ _ => ns
  | patch_namespaced_custom_object _ _ ns _ _ _ _ => ns
  | patch_namespaced_custom_object_status _ _ ns _ _ _ => ns
  | delete_namespaced_custom_object _ _ ns _ _ _ => ns
  | list_namespaced_custom_object _ _ ns _ _ _ => ns
  | delete_collection_namespaced_custom_object _ _ ns _ _ _ => ns
  | watch_stream _ _ ns _ _ _ _ => ns
  end.

(** The handle as the clients see it: a unary call answers with a document
    or raises; a watch call delivers the events the server sends until it
    closes the connection.  A watch event is a dict with the keys [type] and
    [object].  A watch that ends by raising, or that the server keeps open,
    is not represented: [stream] gives the events of a watch that ends. *)
Record CustomObjectsApi : Type := {
  respond : request -> result pyval;
  stream : request -> list dict
}.

(** A client operation: the requests it sent, in order, and how it ended. *)
Definition call (A : Type) : Type := (list request * result A)%type.

Definition sent {A : Type} (c : call A) : list request := fst c.
Definition outcome {A : Type} (c : call A) : result A := snd c.

Definition invoke (api : CustomObjectsApi) (req : request) : call pyval :=
  ([req], respond api req).

Definition pure {A : Type} (r : result A) : call A := ([], r).

Definition and_then {A B : Type} (c : call A) (k : A -> call B) : call B :=
  match c with
  | (log, Ok a) => let (log', r) := k a in ((log ++ log')%list, r)
  | (log, Raise e) => (log, Raise e)
  end.

Notation "x <~ c ;; k" := (and_then c (fun x => k))
  (at level 61, c at next level, right associativity).

(** ** Package [agents_api_client] *)

Module agents_api_client.

(** *** [constants.py] *)

Definition SANDBOX_API_GROUP : string := "agents.kruise.io".
Definition SANDBOX_API_VERSION : string := "v1alpha1".
Definition SANDBOX_PLURAL : string := "sandboxes".
Definition SANDBOXSET_API_GROUP : string := "agents.kruise.io".
Definition SANDBOXSET_API_VERSION : string := "v1alpha1".
Definition SANDBOXSET_PLURAL : string := "sandboxsets".
Definition DEFAULT_NAMESPACE : string := "default".

(** *** [base_client.py] *)

(** The fields [BaseCustomResourceClient.__init__] sets on [self]. *)
Record BaseCustomResourceClient : Type := {
  self_api_group : string;
  self_api_version : string;
  self_plural : string;
  self_namespace : string;
  self_custom_objects_api : CustomObjectsApi
}.

Section Methods.

Variable self : BaseCustomResourceClient.

Let api := self_custom_objects_api self.
Let g := self_api_group self.
Let v := self_api_version self.
Let p := self_plural self.

Definition create_resource (body : pyval) (namespace : option string)
  : call pyval :=
  let ns := py_or namespace (self_namespace self) in
  invoke api (create_namespaced_custom_object g v ns p body).

Definition get_resource (name : string) (namespace : option string)
  : call pyval :=
  let ns := py_or namespace (self_namespace self) in
  invoke api (get_namespaced_custom_object g v ns p name).

Definition update_resource (name : string) (body : pyval)
    (namespace : option string) : call pyval :=
  let ns := py_or namespace (self_namespace self) in
  invoke api (patch_namespaced_custom_object g v ns p name body None).

Definition update_resource_status (name : string) (body : pyval)
    (namespace : option string) : call pyval :=
  let ns := py_or namespace (self_namespace self) in
  invoke api (patch_namespaced_custom_object_status g v ns p name body).

Definition delete_resource (name : string) (namespace : option string)
    (grace_period : option Z) : call pyval :=
  let ns := py_or namespace (self_namespace self) in
  let body := {| grace_period_seconds := None |} in
  let body :=
    match grace_period with
    | Some s => {| grace_period_seconds := Some s |}
    | None => body
    end in
  invoke api (delete_namespaced_custom_object g v ns p name body).

Definition list_resources (namespace label_selector field_selector : option string)
  : call pyval :=
  let ns := py_or namespace (self_namespace self) in
  invoke api (list_namespaced_custom_object g v ns p label_selector field_selector).

(** [event.get("type") == "ERROR"]. *)
Definition is_error_event (event : dict) : bool :=
  py_eq_str (dict_get event "type" PyNone) "ERROR".

(** The body of the [for] loop of [watch_resources] over the events the
    watcher delivers: each event is yielded, and the loop is left after an
    event of type ERROR has been yielded. *)
Fixpoint yield_events (events : list dict) : list dict :=
  match events with
  | [] => []
  | event :: rest =>
      event :: (if is_error_event event then [] else yield_events rest)
  end.

(** [watch_resources] is a generator: the request it opens once iteration
    starts, and the events it yields to a consumer that keeps iterating. *)
Definition watch_resources (namespace label_selector field_selector : option string)
    (timeout_seconds : option Z) : list request * list dict :=
  let ns := py_or namespace (self_namespace self) in
  let req := watch_stream g v ns p label_selector field_selector timeout_seconds in
  ([req], yield_events (stream api req)).

Definition patch_resource (name : string) (body : pyval)
    (namespace : option string) (content_type : option string) : call pyval :=
  let ns := py_or namespace (self_namespace self) in
  let content_type :=
    match content_type with
    | Some c => c
    | None => "application/merge-patch+json"
    end in
  invoke api (patch_namespaced_custom_object g v ns p name body (Some content_type)).

Definition delete_collection_resources
    (namespace label_selector field_selector : option string) : call pyval :=
  let ns := py_or namespace (self_namespace self) in
  invoke api
    (delete_collection_namespaced_custom_object g v ns p label_selector field_selector).

(** The inner loop [for condition in resource['status']['conditions']] with
    its test [condition.get('type') == condition_type and
    condition.get('status') == condition_status]: whether the loop reaches
    its [return]. *)
Fixpoint scan_conditions (conditions : list pyval)
    (condition_type condition_status : string) : result bool :=
  match conditions with
  | [] => Ok false
  | condition :: rest =>
      t <- py_get condition "type" PyNone ;;
      if py_eq_str t condition_type then
        (s <- py_get condition "status" PyNone ;;
         if py_eq_str s condition_status then Ok true
         else scan_conditions rest condition_type condition_status)
      else scan_conditions rest condition_type condition_status
  end.

(** What [wait_for_resource_condition] does with one [resource]: the guard
    ['status' in resource and 'conditions' in resource['status']] followed by
    the inner loop. *)
Definition has_condition (resource : pyval)
    (condition_type condition_status : string) : result bool :=
  has_status <- py_contains "status" resource ;;
  if has_status then
    (status <- py_getitem resource "status" ;;
     has_conditions <- py_contains "conditions" status ;;
     if has_conditions then
       (conditions <- py_getitem status "conditions" ;;
        items <- py_iter conditions ;;
        scan_conditions items condition_type condition_status)
     else Ok false)
  else Ok false.

(** [time.time() > end_time]. *)
Definition past (now end_time : Q) : bool := negb (Qle_bool now end_time).

(** The outer loop of [wait_for_resource_condition] over the events the
    generator yields.  [clock k] is what [time.time()] returns once [k]
    events have been delivered; [seen] counts the events already handled.
    Readings and deadline are rationals, compared exactly; the deadline is
    the exact sum of the first reading and the timeout, where the program
    adds two doubles. *)
Fixpoint wait_loop (clock : nat -> Q) (end_time : Q) (seen : nat)
    (events : list dict) (name condition_type condition_status ns : string)
  : result pyval :=
  match events with
  | [] =>
      Raise (TimeoutError
               ("Unable to find resource " ++ name ++ " in namespace " ++ ns))
  | event :: rest =>
      resource <- dict_getitem event "object" ;;
      found <- has_condition resource condition_type condition_status ;;
      if found then Ok resource
      else if past (clock (S seen)) end_time then
        Raise (TimeoutError
                 ("Timeout waiting for condition " ++ condition_type ++ "="
                  ++ condition_status ++ " for resource " ++ name
                  ++ " in namespace " ++ ns))
      else wait_loop clock end_time (S seen) rest
             name condition_type condition_status ns
  end.

(** [wait_for_resource_condition].  An omitted [condition_status] or
    [timeout] is [None] and takes the default of the signature. *)
Definition wait_for_resource_condition (clock : nat -> Q) (name condition_type : string)
    (condition_status : option string) (timeout : option Z)
    (namespace : option string) : call pyval :=
  let condition_status :=
    match condition_status with Some s => s | None => "True" end in
  let timeout := match timeout with Some t => t | None => 300%Z end in
  let ns := py_or namespace (self_namespace self) in
  let end_time := (clock 0%nat + inject_Z timeout)%Q in
  let (log, events) :=
    watch_resources (Some ns) None (Some ("metadata.name=" ++ name)) None in
  (log, wait_loop clock end_time 0 events name condition_type condition_status ns).

End Methods.

(** *** [sandbox_client.py] *)

Definition SandboxClient (api : CustomObjectsApi) (namespace : option string)
  : BaseCustomResourceClient :=
  {| self_api_group := SANDBOX_API_GROUP;
     self_api_version := SANDBOX_API_VERSION;
     self_plural := SANDBOX_PLURAL;
     self_namespace :=
       match namespace with Some n => n | None => DEFAULT_NAMESPACE end;
     self_custom_objects_api := api |}.

Definition create_sandbox (self : BaseCustomResourceClient) (body : pyval)
    (namespace : option string) : call pyval :=
  create_resource self body namespace.

(** [get_sandbox]: the [try]/[except ApiException] around [get_resource]. *)
Definition get_sandbox (self : BaseCustomResourceClient) (name : string)
    (namespace : option string) : call pyval :=
  let ns := py_or namespace (self_namespace self) in
  match get_resource self name namespace with
  | (log, Raise (ApiException status reason)) =>
      if status_is status 404 then
        (log, Raise (SandboxNotFoundException
                       ("Sandbox '" ++ name ++ "' not found in namespace '"
                        ++ ns ++ "'")))
      else (log, Raise (ApiException status reason))
  | other => other
  end.

Definition wait_for_sandbox_condition (self : BaseCustomResourceClient)
    (clock : nat -> Q) (name condition_type : string)
    (condition_status : option string) (timeout : option Z)
    (namespace : option string) : call pyval :=
  let condition_status :=
    match condition_status with Some s => s | None => "True" end in
  let timeout := match timeout with Some t => t | None => 300%Z end in
  wait_for_resource_condition self clock name condition_type
    (Some condition_status) (Some timeout) namespace.

(** The remaining methods of [SandboxClient] hand their arguments to the
    base client. *)
Definition update_sandbox (self : BaseCustomResourceClient) (name : string)
    (body : pyval) (namespace : option string) : call pyval :=
  update_resource self name body namespace.

Definition update_sandbox_status (self : BaseCustomResourceClient)
    (name : string) (body : pyval) (namespace : option string) : call pyval :=
  update_resource_status self name body namespace.

Definition delete_sandbox (self : BaseCustomResourceClient) (name : string)
    (namespace : option string) (grace_period : option Z) : call pyval :=
  delete_resource self name namespace grace_period.

Definition list_sandboxes (self : BaseCustomResourceClient)
    (namespace label_selector field_selector : option string) : call pyval :=
  list_resources self namespace label_selector field_selector.

(** [yield from self.watch_resources(...)]. *)
Definition watch_sandboxes (self : BaseCustomResourceClient)
    (namespace label_selector field_selector : option string)
    (timeout_seconds : option Z) : list request * list dict :=
  watch_resources self namespace label_selector field_selector timeout_seconds.

Definition patch_sandbox (self : BaseCustomResourceClient) (name : string)
    (body : pyval) (namespace : option string) (content_type : option string)
  : call pyval :=
  let content_type :=
    match content_type with
    | Some c => c
    | None => "application/merge-patch+json"
    end in
  patch_resource self name body namespace (Some content_type).

Definition delete_collection_sandboxes (self : BaseCustomResourceClient)
    (namespace label_selector field_selector : option string) : call pyval :=
  delete_collection_resources self namespace label_selector field_selector.

(** *** [sandboxset_client.py] *)

Definition SandboxSetClient (api : CustomObjectsApi) (namespace : option string)
  : BaseCustomResourceClient :=
  {| self_api_group := SANDBOXSET_API_GROUP;
     self_api_version := SANDBOXSET_API_VERSION;
     self_plural := SANDBOXSET_PLURAL;
     self_namespace :=
       match namespace with Some n => n | None => DEFAULT_NAMESPACE end;
     self_custom_objects_api := api |}.

Definition create_sandboxset (self : BaseCustomResourceClient) (body : pyval)
    (namespace : option string) : call pyval :=
  create_resource self body namespace.

(** [get_sandboxset]: the [try]/[except ApiException] around [get_resource]. *)
Definition get_sandboxset (self : BaseCustomResourceClient) (name : string)
    (namespace : option string) : call pyval :=
  let ns := py_or namespace (self_namespace self) in
  match get_resource self name namespace with
  | (log, Raise (ApiException status reason)) =>
      if status_is status 404 then
        (log, Raise (SandboxSetNotFoundException
                       ("SandboxSet '" ++ name ++ "' not found in namespace '"
                        ++ ns ++ "'")))
      else (log, Raise (ApiException status reason))
  | other => other
  end.

Definition wait_for_sandboxset_condition (self : BaseCustomResourceClient)
    (clock : nat -> Q) (name condition_type : string)
    (condition_status : option string) (timeout : option Z)
    (namespace : option string) : call pyval :=
  let condition_status :=
    match condition_status with Some s => s | None => "True" end in
  let timeout := match timeout with Some t => t | None => 300%Z end in
  wait_for_resource_condition self clock name condition_type
    (Some condition_status) (Some timeout) namespace.

Definition scale_sandboxset (self : BaseCustomResourceClient) (name : string)
    (replicas : Z) (namespace : option string) : call pyval :=
  let ns := py_or namespace (self_namespace self) in
  let patch_body := PyDict [("spec", PyDict [("replicas", PyInt replicas)])] in
  invoke (self_custom_objects_api self)
    (patch_namespaced_custom_object
       (self_api_group self) (self_api_version self) ns (self_plural self)
       name patch_body None).

Definition get_sandboxset_replicas (self : BaseCustomResourceClient)
    (name : string) (namespace : option string) : call pyval :=
  sandboxset <~ get_sandboxset self name namespace ;;
  pure (spec <- py_get sandboxset "spec" (PyDict []) ;;
        py_get spec "replicas" (PyInt 0)).

(** The remaining methods of [SandboxSetClient] hand their arguments to the
    base client. *)
Definition update_sandboxset (self : BaseCustomResourceClient) (name : string)
    (body : pyval) (namespace : option string) : call pyval :=
  update_resource self name body namespace.

Definition update_sandboxset_status (self : BaseCustomResourceClient)
    (name : string) (body : pyval) (namespace : option string) : call pyval :=
  update_resource_status self name body namespace.

Definition delete_sandboxset (self : BaseCustomResourceClient) (name : string)
    (namespace : option string) (grace_period : option Z) : call pyval :=
  delete_resource self name namespace grace_period.

Definition list_sandboxsets (self : BaseCustomResourceClient)
    (namespace label_selector field_selector : option string) : call pyval :=
  list_resources self namespace label_selector field_selector.

(** [yield from self.watch_resources(...)]. *)
Definition watch_sandboxsets (self : BaseCustomResourceClient)
    (namespace label_selector field_selector : option string)
    (timeout_seconds : option Z) : list request * list dict :=
  watch_resources self namespace label_selector field_selector timeout_seconds.

Definition patch_sandboxset (self : BaseCustomResourceClient) (name : string)
    (body : pyval) (namespace : option string) (content_type : option string)
  : call pyval :=
  let content_type :=
    match content_type with
    | Some c => c
    | None => "application/merge-patch+json"
    end in
  patch_resource self name body namespace (Some content_type).

Definition delete_collection_sandboxsets (self : BaseCustomResourceClient)
    (namespace label_selector field_selector : option string) : call pyval :=
  delete_collection_resources self namespace label_selector field_selector.

End agents_api_client.

(** ** Package [openkruise.agents] *)

Module openkruise.

(** Modelled from the spec: the typed resource models ([Sandbox],
    [SandboxSet], [SandboxClaim] of [openkruise/agents/models]) are not among
    the sources.  The spec describes them as data-only structures, so a model
    object is embedded as the attributes that have been set on it, under
    their aliases. *)
Record model : Type := { attributes : dict }.

(** [d[key] = value] on a dict: the binding of [key] is replaced where it
    stands, or added at the end. *)
Fixpoint dict_set (d : dict) (key : string) (value : pyval) : dict :=
  match d with
  | [] => [(key, value)]
  | (k, v) :: rest =>
      if String.eqb k key then (k, value) :: rest
      else (k, v) :: dict_set rest key value
  end.

(** [m.name = value]: the value is stored as given. *)
Definition setattr (m : model) (name : string) (value : pyval) : model :=
  {| attributes := dict_set (attributes m) name value |}.

(** [m.model_dump(exclude_unset=True, by_alias=True)]: the attributes that
    have been set, as a dict. *)
Definition model_dump (m : model) : pyval := PyDict (attributes m).

(** The fields the three [__init__] methods set on [self]. *)
Record client : Type := {
  self_group : string;
  self_version : string;
  self_plural : string;
  self_namespace : string;
  self_kind : string;
  self_api : CustomObjectsApi
}.

(** *** [sandbox_client.py] *)

Definition SandboxClient (api : CustomObjectsApi) (namespace : option string)
  : client :=
  {| self_group := "agents.kruise.io";
     self_version := "v1alpha1";
     self_plural := "sandboxes";
     self_kind := "Sandbox";
     self_namespace := match namespace with Some n => n | None => "default" end;
     self_api := api |}.

Definition create_sandbox (self : client) (sandbox : model) : call pyval :=
  let sandbox :=
    setattr sandbox "apiVersion"
      (PyStr (self_group self ++ "/" ++ self_version self)) in
  let sandbox := setattr sandbox "kind" (PyStr (self_kind self)) in
  let body := model_dump sandbox in
  invoke (self_api self)
    (create_namespaced_custom_object
       (self_group self) (self_version self) (self_namespace self)
       (self_plural self) body).

(** *** [sandboxset_client.py] *)

Definition SandboxSetClient (api : CustomObjectsApi) (namespace : option string)
  : client :=
  {| self_group := "agents.kruise.io";
     self_version := "v1alpha1";
     self_plural := "sandboxsets";
     self_namespace := match namespace with Some n => n | None => "default" end;
     self_kind := "SandboxSet";
     self_api := api |}.

(** The two assignments end in a comma in the source, so each right-hand
    side is a one-element tuple. *)
Definition create_sandboxset (self : client) (sandboxset : model) : call pyval :=
  let sandboxset :=
    setattr sandboxset "apiVersion"
      (PyTuple [PyStr (self_group self ++ "/" ++ self_version self)]) in
  let sandboxset := setattr sandboxset "kind" (PyTuple [PyStr (self_kind self)]) in
  let body := model_dump sandboxset in
  invoke (self_api self)
    (create_namespaced_custom_object
       (self_group self) (self_version self) (self_namespace self)
       (self_plural self) body).

(** *** [sandbox_claim_client.py] *)

Definition SandboxClaimClient (api : CustomObjectsApi) (namespace : option string)
  : client :=
  {| self_group := "agents.kruise.io";
     self_version := "v1alpha1";
     self_plural := "sandboxclaims";
     self_namespace := match namespace with Some n => n | None => "default" end;
     self_kind := "SandboxClaim";
     self_api := api |}.

(** Here too both assignments end in a comma. *)
Definition create_sandboxclaim (self : client) (sandbox_claim : model)
  : call pyval :=
  let sandbox_claim :=
    setattr sandbox_claim "apiVersion"
      (PyTuple [PyStr (self_group self ++ "/" ++ self_version self)]) in
  let sandbox_claim :=
    setattr sandbox_claim "kind" (PyTuple [PyStr (self_kind self)]) in
  let body := model_dump sandbox_claim in
  invoke (self_api self)
    (create_namespaced_custom_object
       (self_group self) (self_version self) (self_namespace self)
       (self_plural self) body).

(** *** The other methods of the typed clients

    None takes a namespace: each uses [self.namespace].  The
    [delete_sandboxset] and [delete_sandboxclaim] methods pass
    [grace_period_seconds] as a keyword of its own instead of a
    [V1DeleteOptions] body and are left out. *)

Definition get_sandbox (self : client) (name : string) : call pyval :=
  invoke (self_api self)
    (get_namespaced_custom_object
       (self_group self) (self_version self) (self_namespace self)
       (self_plural self) name).

(** [update_sandbox] takes a model and sends its dump; nothing is set on
    the model first. *)
Definition update_sandbox (self : client) (name : string) (sandbox : model)
  : call pyval :=
  let sandbox_dict := model_dump sandbox in
  invoke (self_api self)
    (patch_namespaced_custom_object
       (self_group self) (self_version self) (self_namespace self)
       (self_plural self) name sandbox_dict None).

Definition delete_sandbox (self : client) (name : string)
    (grace_period : option Z) : call pyval :=
  let body := {| grace_period_seconds := None |} in
  let body :=
    match grace_period with
    | Some s => {| grace_period_seconds := Some s |}
    | None => body
    end in
  invoke (self_api self)
    (delete_namespaced_custom_object
       (self_group self) (self_version self) (self_namespace self)
       (self_plural self) name body).

Definition get_sandboxset (self : client) (name : string) : call pyval :=
  invoke (self_api self)
    (get_namespaced_custom_object
       (self_group self) (self_version self) (self_namespace self)
       (self_plural self) name).

(** [update_sandboxset] and [update_sandboxclaim] take the body as a dict. *)
Definition update_sandboxset (self : client) (name : string) (body : pyval)
  : call pyval :=
  invoke (self_api self)
    (patch_namespaced_custom_object
       (self_group self) (self_version self) (self_namespace self)
       (self_plural self) name body None).

Definition get_sandboxclaim (self : client) (name : string) : call pyval :=
  invoke (self_api self)
    (get_namespaced_custom_object
       (self_group self) (self_version self) (self_namespace self)
       (self_plural self) name).

Definition update_sandboxclaim (self : client) (name : string) (body : pyval)
  : call pyval :=
  invoke (self_api self)
    (patch_namespaced_custom_object
       (self_group self) (self_version self) (self_namespace self)
       (self_plural self) name body None).

End openkruise.

(** ** Vocabulary of the properties *)

Import agents_api_client.

(** *** Requests *)

(** The request [get_resource] sends for [name]. *)
Definition get_request (self : BaseCustomResourceClient) (name : string)
    (namespace : option string) : request :=
  get_namespaced_custom_object
    (self_api_group self) (self_api_version self)
    (py_or namespace (self_namespace self)) (self_plural self) name.

(** The body a request carries, for the requests that carry a document. *)
Definition request_body (r : request) : option pyval :=
  match r with
  | create_namespaced_custom_object _ _ _ _ body => Some body
  | patch_namespaced_custom_object _ _ _ _ _ body _ => Some body
  | patch_namespaced_custom_object_status _ _ _ _ _ body => Some body
  | _ => None
  end.

(** The keys of a dict value. *)
Definition keys (v : pyval) : list string :=
  match v with
  | PyDict d => map fst d
  | _ => []
  end.

(** The events the server delivers on the watch [watch_resources] opens. *)
Definition delivered (self : BaseCustomResourceClient)
    (namespace label_selector field_selector : option string)
    (timeout_seconds : option Z) : list dict :=
  stream (self_custom_objects_api self)
    (watch_stream
       (self_api_group self) (self_api_version self)
       (py_or namespace (self_namespace self)) (self_plural self)
       label_selector field_selector timeout_seconds).

(** The events the server delivers on the watch that
    [wait_for_resource_condition] opens for [name]. *)
Definition delivered_for (self : BaseCustomResourceClient) (name : string)
    (namespace : option string) : list dict :=
  delivered self (Some (py_or namespace (self_namespace self))) None
    (Some ("metadata.name=" ++ name)) None.

(** The operations of the base client, each with its arguments other than
    the per-call namespace. *)
Inductive operation : Type :=
| Create (body : pyval)
| Get (name : string)
| Update (name : string) (body : pyval)
| UpdateStatus (name : string) (body : pyval)
| Patch (name : string) (body : pyval) (content_type : option string)
| Delete (name : string) (grace_period : option Z)
| ListAll (label_selector field_selector : option string)
| Watch (label_selector field_selector : option string)
    (timeout_seconds : option Z)
| DeleteCollection (label_selector field_selector : option string)
| WaitForCondition (clock : nat -> Q) (name condition_type : string)
    (condition_status : option string) (timeout : option Z).

(** The requests an operation sends when it is called with [namespace]. *)
Definition requests_sent (self : BaseCustomResourceClient) (op : operation)
    (namespace : option string) : list request :=
  match op with
  | Create body => sent (create_resource self body namespace)
  | Get name => sent (get_resource self name namespace)
  | Update name body => sent (update_resource self name body namespace)
  | UpdateStatus name body =>
      sent (update_resource_status self name body namespace)
  | Patch name body content_type =>
      sent (patch_resource self name body namespace content_type)
  | Delete name grace_period =>
      sent (delete_resource self name namespace grace_period)
  | ListAll label_selector field_selector =>
      sent (list_resources self namespace label_selector field_selector)
  | Watch label_selector field_selector timeout_seconds =>
      fst (watch_resources self namespace label_selector field_selector
             timeout_seconds)
  | DeleteCollection label_selector field_selector =>
      sent (delete_collection_resources self namespace label_selector
              field_selector)
  | WaitForCondition clock name condition_type condition_status timeout =>
      sent (wait_for_resource_condition self clock name condition_type
              condition_status timeout namespace)
  end.

(** Every request of the list targets [ns], and there is one at least. *)
Definition all_target (ns : string) (reqs : list request) : Prop :=
  reqs <> [] /\ Forall (fun r => request_namespace r = ns) reqs.

(** *** Resource documents *)

Definition is_dict (v : pyval) : bool :=
  match v with
  | PyDict _ => true
  | _ => false
  end.

(** A stored SandboxSet document: an object whose [spec], when present, is
    an object. *)
Definition sandboxset_document (doc : pyval) : bool :=
  match doc with
  | PyDict d =>
      match dict_lookup d "spec" with
      | Some spec => is_dict spec
      | None => true
      end
  | _ => false
  end.

(** The value at [spec.replicas] of a document, when it has one. *)
Definition spec_replicas (doc : pyval) : option pyval :=
  match doc with
  | PyDict d =>
      match dict_lookup d "spec" with
      | Some (PyDict spec) => dict_lookup spec "replicas"
      | _ => None
      end
  | _ => None
  end.

(** The list at [status.conditions] of a resource document, when the
    document has one. *)
Definition status_conditions (resource : pyval) : option (list pyval) :=
  match resource with
  | PyDict r =>
      match dict_lookup r "status" with
      | Some (PyDict st) =>
          match dict_lookup st "conditions" with
          | Some (PyList l) => Some l
          | _ => None
          end
      | _ => None
      end
  | _ => None
  end.

(** A condition entry [{type: condition_type, status: condition_status, ...}]. *)
Definition is_condition (condition_type condition_status : string) (c : pyval)
  : bool :=
  match c with
  | PyDict d =>
      match dict_lookup d "type", dict_lookup d "status" with
      | Some (PyStr t), Some (PyStr s) =>
          String.eqb t condition_type && String.eqb s condition_status
      | _, _ => false
      end
  | _ => false
  end.

(** The document has a [status.conditions] entry with the requested pair. *)
Definition has_matching_condition (resource : pyval)
    (condition_type condition_status : string) : bool :=
  match status_conditions resource with
  | Some l => existsb (is_condition condition_type condition_status) l
  | None => false
  end.

(** Documents as the API server sends them: an object whose [status], when
    present, is an object whose [conditions], when present, is a list of
    objects.  The [Status] object of an ERROR event has a string at [status];
    it is admitted when the string does not contain [conditions]. *)
Definition well_formed_resource (resource : pyval) : bool :=
  match resource with
  | PyDict r =>
      match dict_lookup r "status" with
      | None => true
      | Some (PyDict st) =>
          match dict_lookup st "conditions" with
          | None => true
          | Some (PyList l) => forallb is_dict l
          | Some _ => false
          end
      | Some (PyStr s) => negb (is_substring "conditions" s)
      | Some _ => false
      end
  | _ => false
  end.

(** A watch event whose object is a well-formed document with the requested
    condition. *)
Definition matching_event (condition_type condition_status : string)
    (event : dict) : bool :=
  match dict_lookup event "object" with
  | Some resource =>
      well_formed_resource resource
      && has_matching_condition resource condition_type condition_status
  | None => false
  end.

(** A watch event whose object is a well-formed document without the
    requested condition. *)
Definition quiet_event (condition_type condition_status : string)
    (event : dict) : bool :=
  match dict_lookup event "object" with
  | Some resource =>
      well_formed_resource resource
      && negb (has_matching_condition resource condition_type condition_status)
  | None => false
  end.

(** A watch event whose object is a well-formed document. *)
Definition well_formed_event (event : dict) : bool :=
  match dict_lookup event "object" with
  | Some resource => well_formed_resource resource
  | None => false
  end.

(** *** Waiting *)

(** The call ended in a [TimeoutError]. *)
Definition timed_out (r : result pyval) : Prop :=
  exists msg, r = Raise (TimeoutError msg).

(** The deadline of a call that started when the clock read [clock 0]. *)
Definition deadline (clock : nat -> Q) (timeout : option Z) : Q :=
  (clock 0%nat + inject_Z (match timeout with Some t => t | None => 300%Z end))%Q.

(** The condition status a call asks for. *)
Definition requested_status (condition_status : option string) : string :=
  match condition_status with Some s => s | None => "True" end.

(** *** The claims that fail as they are worded *)

(** "Fails with Timeout whenever no event carries a matching condition
    within the timeout budget": the events are well formed, and every event
    that has the condition is delivered when the clock is already past the
    deadline. *)
Definition timeout_whenever_no_match_in_budget : Prop :=
  forall (self : BaseCustomResourceClient) (clock : nat -> Q)
         (name condition_type : string) (condition_status : option string)
         (timeout : option Z) (namespace : option string),
    forallb well_formed_event (delivered_for self name namespace) = true ->
    (forall k event,
        nth_error (delivered_for self name namespace) k = Some event ->
        matching_event condition_type (requested_status condition_status) event
        = true ->
        past (clock (S k)) (deadline clock timeout) = true) ->
    timed_out
      (outcome (wait_for_resource_condition self clock name condition_type
                  condition_status timeout namespace)).

(** "Returns that event's resource document at the first such event", for
    every stream that contains a matching event after well-formed events
    without the condition. *)
Definition returns_first_match_always : Prop :=
  forall (self : BaseCustomResourceClient) (clock : nat -> Q)
         (name condition_type : string) (condition_status : option string)
         (timeout : option Z) (namespace : option string)
         (before after : list dict) (event : dict) (resource : pyval),
    delivered_for self name namespace = (before ++ event :: after)%list ->
    forallb (quiet_event condition_type (requested_status condition_status))
      before = true ->
    matching_event condition_type (requested_status condition_status) event
    = true ->
    dict_lookup event "object" = Some resource ->
    outcome (wait_for_resource_condition self clock name condition_type
               condition_status timeout namespace) = Ok resource.

(** "If a per-call namespace argument is provided then the request targets
    that namespace". *)
Definition provided_namespace_always_targeted : Prop :=
  forall (self : BaseCustomResourceClient) (op : operation) (ns : string),
    all_target ns (requests_sent self op (Some ns)).

(** *** Sample data *)

Definition watch_event (type : string) (object : pyval) : dict :=
  [("type", PyStr type); ("object", object)].

(** A Sandbox document whose [Ready] condition has the given status. *)
Definition sandbox_with_ready (status : string) : pyval :=
  PyDict
    [("metadata", PyDict [("name", PyStr "test-sandbox")]);
     ("status",
      PyDict
        [("conditions",
          PyList [PyDict [("type", PyStr "Ready"); ("status", PyStr status)]])])].

(** The [Status] object an ERROR event carries. *)
Definition failure_status : pyval :=
  PyDict [("kind", PyStr "Status"); ("status", PyStr "Failure");
          ("code", PyInt 410)].

(** The sandbox is first seen not ready, then ready. *)
Definition pending_then_ready : list dict :=
  [watch_event "ADDED" (sandbox_with_ready "False");
   watch_event "MODIFIED" (sandbox_with_ready "True")].

(** An ERROR event comes between the two. *)
Definition interrupted : list dict :=
  [watch_event "ADDED" (sandbox_with_ready "False");
   watch_event "ERROR" failure_status;
   watch_event "MODIFIED" (sandbox_with_ready "True")].

(** A SandboxSet document as the unit tests build them, with the given
    [spec]. *)
Definition sandboxset_with_spec (spec : dict) : pyval :=
  PyDict
    [("apiVersion", PyStr "agents.kruise.io/v1alpha1");
     ("kind", PyStr "SandboxSet");
     ("metadata",
      PyDict [("name", PyStr "test-sandboxset");
              ("namespace", PyStr "test-namespace")]);
     ("spec", PyDict spec)].

(** A handle whose unary calls answer [r] and whose watch delivers
    [events]. *)
Definition mock_api (r : result pyval) (events : list dict) : CustomObjectsApi :=
  {| respond := fun _ => r; stream := fun _ => events |}.

(** The clients of the unit tests, configured for [test-namespace], on a
    handle that answers [r]. *)
Definition sandbox_client_answering (r : result pyval) : BaseCustomResourceClient :=
  SandboxClient (mock_api r []) (Some "test-namespace").

Definition sandboxset_client_answering (r : result pyval)
  : BaseCustomResourceClient :=
  SandboxSetClient (mock_api r []) (Some "test-namespace").

(** A Sandbox client in the default namespace whose watch delivers
    [events]. *)
Definition watching (events : list dict) : BaseCustomResourceClient :=
  SandboxClient (mock_api (Raise (ApiException None "")) events) None.

(** A clock that reads 0 when the call starts and 1000 from the first
    event on. *)
Definition late_clock (k : nat) : Q :=
  match k with
  | O => 0
  | S _ => inject_Z 1000
  end.

(** A clock that stands still. *)
Definition still_clock (k : nat) : Q := 0.

(** *** Vocabulary of the further properties *)

(** The group, version and plural a request names. *)
Definition request_coordinate (r : request) : string * string * string :=
  match r with
  | create_namespaced_custom_object g v _ p _ => (g, v, p)
  | get_namespaced_custom_object g v _ p _ => (g, v, p)
  | patch_namespaced_custom_object g v _ p _ _ _ => (g, v, p)
  | patch_namespaced_custom_object_status g v _ p _ _ => (g, v, p)
  | delete_namespaced_custom_object g v _ p _ _ => (g, v, p)
  | list_namespaced_custom_object g v _ p _ _ => (g, v, p)
  | delete_collection_namespaced_custom_object g v _ p _ _ => (g, v, p)
  | watch_stream g v _ p _ _ _ => (g, v, p)
  end.

(** The coordinate a client was built for. *)
Definition client_coordinate (self : BaseCustomResourceClient)
  : string * string * string :=
  (self_api_group self, self_api_version self, self_plural self).

(** The document an operation is given to send, when it is given one. *)
Definition operation_body (op : operation) : option pyval :=
  match op with
  | Create body => Some body
  | Update _ body => Some body
  | UpdateStatus _ body => Some body
  | Patch _ body _ => Some body
  | _ => None
  end.

(** The operations of the base client that make one call and return its
    answer, run with [namespace]; the watch and the wait are not of them. *)
Definition unary_call (self : BaseCustomResourceClient) (op : operation)
    (namespace : option string) : option (call pyval) :=
  match op with
  | Create body => Some (create_resource self body namespace)
  | Get name => Some (get_resource self name namespace)
  | Update name body => Some (update_resource self name body namespace)
  | UpdateStatus name body =>
      Some (update_resource_status self name body namespace)
  | Patch name body content_type =>
      Some (patch_resource self name body namespace content_type)
  | Delete name grace_period =>
      Some (delete_resource self name namespace grace_period)
  | ListAll label_selector field_selector =>
      Some (list_resources self namespace label_selector field_selector)
  | DeleteCollection label_selector field_selector =>
      Some (delete_collection_resources self namespace label_selector
              field_selector)
  | Watch _ _ _ => None
  | WaitForCondition _ _ _ _ _ => None
  end.

(** The requests the methods of [SandboxClient] send, by the operation they
    stand for. *)
Definition sandbox_requests_sent (self : BaseCustomResourceClient)
    (op : operation) (namespace : option string) : list request :=
  match op with
  | Create body => sent (create_sandbox self body namespace)
  | Get name => sent (get_sandbox self name namespace)
  | Update name body => sent (update_sandbox self name body namespace)
  | UpdateStatus name body =>
      sent (update_sandbox_status self name body namespace)
  | Patch name body content_type =>
      sent (patch_sandbox self name body namespace content_type)
  | Delete name grace_period =>
      sent (delete_sandbox self name namespace grace_period)
  | ListAll label_selector field_selector =>
      sent (list_sandboxes self namespace label_selector field_selector)
  | Watch label_selector field_selector timeout_seconds =>
      fst (watch_sandboxes self namespace label_selector field_selector
             timeout_seconds)
  | DeleteCollection label_selector field_selector =>
      sent (delete_collection_sandboxes self namespace label_selector
              field_selector)
  | WaitForCondition clock name condition_type condition_status timeout =>
      sent (wait_for_sandbox_condition self clock name condition_type
              condition_status timeout namespace)
  end.

(** The same for the methods of [SandboxSetClient]. *)
Definition sandboxset_requests_sent (self : BaseCustomResourceClient)
    (op : operation) (namespace : option string) : list request :=
  match op with
  | Create body => sent (create_sandboxset self body namespace)
  | Get name => sent (get_sandboxset self name namespace)
  | Update name body => sent (update_sandboxset self name body namespace)
  | UpdateStatus name body =>
      sent (update_sandboxset_status self name body namespace)
  | Patch name body content_type =>
      sent (patch_sandboxset self name body namespace content_type)
  | Delete name grace_period =>
      sent (delete_sandboxset self name namespace grace_period)
  | ListAll label_selector field_selector =>
      sent (list_sandboxsets self namespace label_selector field_selector)
  | Watch label_selector field_selector timeout_seconds =>
      fst (watch_sandboxsets self namespace label_selector field_selector
             timeout_seconds)
  | DeleteCollection label_selector field_selector =>
      sent (delete_collection_sandboxsets self namespace label_selector
              field_selector)
  | WaitForCondition clock name condition_type condition_status timeout =>
      sent (wait_for_sandboxset_condition self clock name condition_type
              condition_status timeout namespace)
  end.

(** What the wait has seen of an event that it passed over: an object whose
    inspection found no match. *)
Definition passed_over (condition_type condition_status : string)
    (event : dict) : Prop :=
  exists resource,
    dict_lookup event "object" = Some resource
    /\ has_condition resource condition_type condition_status = Ok false.

(** One request was sent, in the namespace [ns], to [coordinate]. *)
Definition sent_to (ns : string) (coordinate : string * string * string)
    (reqs : list request) : Prop :=
  exists req,
    reqs = [req]
    /\ request_namespace req = ns
    /\ request_coordinate req = coordinate.

(** One request was sent, and it carries [body]. *)
Definition sent_with_body (body : pyval) (reqs : list request) : Prop :=
  exists req, reqs = [req] /\ request_body req = Some body.

(** ** Properties *)

(** [split_andb H] breaks a hypothesis [a && b = true] in two. *)
Ltac split_andb H :=
  let H1 := fresh H in
  let H2 := fresh H in
  apply andb_true_iff in H; destruct H as [H1 H2].

(** *** The watch generator *)


Lemma existsb_false_forallb_negb {A : Type} (f : A -> bool) (l : list A) :
  existsb f l = false -> forallb (fun x => negb (f x)) l = true.
Proof.
  induction l as [|x l IH]; simpl; intros H; [reflexivity|].
  apply orb_false_iff in H as [Hx Hl]. rewrite Hx. simpl. auto.
Qed.

(** Events that are not of type ERROR are yielded and the loop goes on. *)
Lemma yield_events_app_quiet (before rest : list dict) :
  existsb is_error_event before = false ->
  yield_events (before ++ rest) = (before ++ yield_events rest)%list.
Proof.
  induction before as [|b before IH]; simpl; intros Hb; [reflexivity|].
  apply orb_false_iff in Hb as [Hb1 Hb2]. rewrite Hb1. now rewrite IH.
Qed.

(** What follows an ERROR event is not reached. *)
Lemma yield_events_app_error (before rest : list dict) :
  existsb is_error_event before = true ->
  yield_events (before ++ rest) = yield_events before.
Proof.
  induction before as [|event before IH]; simpl; intros H; [discriminate|].
  destruct (is_error_event event); [reflexivity|].
  simpl in H. now rewrite IH.
Qed.

Lemma yield_events_all (events : list dict) :
  existsb is_error_event events = false ->
  yield_events events = events.
Proof.
  intros H.
  rewrite <- (app_nil_r events) at 1.
  rewrite yield_events_app_quiet by assumption. simpl. apply app_nil_r.
Qed.

Lemma yield_events_until (before after : list dict) (event : dict) :
  existsb is_error_event before = false ->
  is_error_event event = true ->
  yield_events (before ++ event :: after) = (before ++ [event])%list.
Proof.
  intros Hb He. rewrite yield_events_app_quiet by assumption.
  simpl. now rewrite He.
Qed.


(** The first ERROR event of a stream that has one. *)
Lemma first_error_event (events : list dict) :
  existsb is_error_event events = true ->
  exists before event after,
    events = (before ++ event :: after)%list
    /\ existsb is_error_event before = false
    /\ is_error_event event = true.
Proof.
  induction events as [|e rest IH]; simpl; intros H; [discriminate|].
  destruct (is_error_event e) eqn:He.
  - exists [], e, rest. auto.
  - destruct (IH H) as (before & event & after & E & Hb & Hev).
    exists (e :: before), event, after. subst rest. simpl. rewrite He. auto.
Qed.

Lemma forallb_yield_events (P : dict -> bool) (events : list dict) :
  forallb P events = true -> forallb P (yield_events events) = true.
Proof.
  induction events as [|event rest IH]; simpl; intros H; [reflexivity|].
  split_andb H. rewrite H0. simpl.
  destruct (is_error_event event); auto.
Qed.



(** C10: when the server delivers an event of type ERROR, the first such
    event is itself yielded by [watch_resources], after the events that
    precede it, and it is the last item of the sequence. *)
Theorem watch_resources_yields_error
    (self : BaseCustomResourceClient)
    (namespace label_selector field_selector : option string)
    (timeout_seconds : option Z) :
  existsb is_error_event
    (delivered self namespace label_selector field_selector timeout_seconds)
  = true ->
  exists before event after,
    delivered self namespace label_selector field_selector timeout_seconds
    = (before ++ event :: after)%list
    /\ existsb is_error_event before = false
    /\ is_error_event event = true
    /\ snd (watch_resources self namespace label_selector field_selector
              timeout_seconds) = (before ++ [event])%list
    /\ last (snd (watch_resources self namespace label_selector field_selector
                    timeout_seconds)) [] = event.
Proof.
  unfold watch_resources, delivered. simpl.
  set (events := stream _ _). intros H.
  destruct (first_error_event events H) as (before & event & after & E & Hb & He).
  exists before, event, after. repeat apply conj; auto.
  - rewrite E. now apply yield_events_until.
  - rewrite E, yield_events_until by assumption. apply last_last.
Qed.

(** On the stream ADDED, ERROR, MODIFIED, watched with a timeout of 30
    seconds, the ERROR event is delivered. *)
Lemma watch_resources_yields_error_witness :
  exists before event after,
    interrupted = (before ++ event :: after)%list
    /\ existsb is_error_event before = false
    /\ is_error_event event = true
    /\ snd (watch_resources (watching interrupted) None None None (Some 30%Z))
       = (before ++ [event])%list
    /\ last (snd (watch_resources (watching interrupted) None None None
                    (Some 30%Z))) [] = event.
Proof.
  exact (watch_resources_yields_error (watching interrupted)
           None None None (Some 30%Z) eq_refl).
Defined.

(** *** Not-found translation *)

Lemma get_resource_unfold (self : BaseCustomResourceClient) (name : string)
    (namespace : option string) :
  get_resource self name namespace
  = ([get_request self name namespace],
     respond (self_custom_objects_api self) (get_request self name namespace)).
Proof. reflexivity. Qed.

(** C1: when the transport answers the get with an error [e], then
    [get_sandbox] and [get_sandboxset] raise their own not-found exception,
    whose message holds the name and the resolved namespace, if [e] is an
    [ApiException] of status 404, and raise [e] itself otherwise. *)
Theorem get_translates_not_found
    (self : BaseCustomResourceClient) (name : string)
    (namespace : option string) (e : exn) :
  respond (self_custom_objects_api self) (get_request self name namespace)
  = Raise e ->
  ((exists reason, e = ApiException (Some 404%Z) reason) ->
     outcome (get_sandbox self name namespace)
     = Raise (SandboxNotFoundException
                ("Sandbox '" ++ name ++ "' not found in namespace '"
                 ++ py_or namespace (self_namespace self) ++ "'"))
     /\ outcome (get_sandboxset self name namespace)
        = Raise (SandboxSetNotFoundException
                   ("SandboxSet '" ++ name ++ "' not found in namespace '"
                    ++ py_or namespace (self_namespace self) ++ "'")))
  /\ ((forall reason, e <> ApiException (Some 404%Z) reason) ->
        outcome (get_sandbox self name namespace) = Raise e
        /\ outcome (get_sandboxset self name namespace) = Raise e).
Proof.
  intros He. unfold get_sandbox, get_sandboxset.
  rewrite get_resource_unfold, He. split.
  - intros [reason ->]. split; reflexivity.
  - intros Hne.
    destruct e as [status reason| | | | | | |]; try (split; reflexivity).
    destruct (status_is status 404) eqn:Hs; [|split; reflexivity].
    destruct status as [s|]; [|discriminate].
    apply Z.eqb_eq in Hs. subst s. now destruct (Hne reason).
Qed.

(** A 404 on the get of a Sandbox and, with a namespace override, of a
    SandboxSet; a 500 and an error without status. *)
Lemma get_translates_not_found_witness :
  (outcome (get_sandbox
              (sandbox_client_answering
                 (Raise (ApiException (Some 404%Z) "Not Found")))
              "non-existing-sandbox" None)
   = Raise (SandboxNotFoundException
              "Sandbox 'non-existing-sandbox' not found in namespace 'test-namespace'")
   /\ outcome (get_sandboxset
                 (sandboxset_client_answering
                    (Raise (ApiException (Some 404%Z) "Not Found")))
                 "non-existing-sandboxset" (Some "other-namespace"))
      = Raise (SandboxSetNotFoundException
                 "SandboxSet 'non-existing-sandboxset' not found in namespace 'other-namespace'"))
  /\ (outcome (get_sandbox
                 (sandbox_client_answering
                    (Raise (ApiException (Some 500%Z) "Internal Server Error")))
                 "test-sandbox" None)
      = Raise (ApiException (Some 500%Z) "Internal Server Error")
      /\ outcome (get_sandboxset
                    (sandboxset_client_answering (Raise (ApiException None "")))
                    "test-sandboxset" None)
         = Raise (ApiException None "")).
Proof.
  split; split.
  - apply (get_translates_not_found
             (sandbox_client_answering
                (Raise (ApiException (Some 404%Z) "Not Found")))
             "non-existing-sandbox" None _ eq_refl).
    now exists "Not Found".
  - apply (get_translates_not_found
             (sandboxset_client_answering
                (Raise (ApiException (Some 404%Z) "Not Found")))
             "non-existing-sandboxset" (Some "other-namespace") _ eq_refl).
    now exists "Not Found".
  - apply (get_translates_not_found
             (sandbox_client_answering
                (Raise (ApiException (Some 500%Z) "Internal Server Error")))
             "test-sandbox" None _ eq_refl).
    intros reason; discriminate.
  - apply (get_translates_not_found
             (sandboxset_client_answering (Raise (ApiException None "")))
             "test-sandboxset" None _ eq_refl).
    intros reason; discriminate.
Defined.

(** *** Scaling and reading replicas *)

(** C5: [scale_sandboxset] sends one request, a patch of the named
    SandboxSet whose body is the dict [{"spec": {"replicas": N}}]: its only
    key is [spec], and the only key under [spec] is [replicas], bound to [N];
    the answer to that request is what the call returns. *)
Theorem scale_sandboxset_patches_replicas_only
    (self : BaseCustomResourceClient) (name : string) (replicas : Z)
    (namespace : option string) :
  exists req body spec,
    sent (scale_sandboxset self name replicas namespace) = [req]
    /\ req = patch_namespaced_custom_object
               (self_api_group self) (self_api_version self)
               (py_or namespace (self_namespace self)) (self_plural self)
               name body None
    /\ request_body req = Some body
    /\ body = PyDict [("spec", PyDict [("replicas", PyInt replicas)])]
    /\ keys body = ["spec"]
    /\ py_getitem body "spec" = Ok spec
    /\ keys spec = ["replicas"]
    /\ py_getitem spec "replicas" = Ok (PyInt replicas)
    /\ outcome (scale_sandboxset self name replicas namespace)
       = respond (self_custom_objects_api self) req.
Proof.
  eexists _, _, _. repeat apply conj; reflexivity.
Qed.

(** C6: when the get answers with a stored SandboxSet document,
    [get_sandboxset_replicas] returns the value stored at [spec.replicas] if
    the document has one, and 0 if it has none. *)
Theorem get_sandboxset_replicas_reads_spec
    (self : BaseCustomResourceClient) (name : string)
    (namespace : option string) (doc : pyval) :
  respond (self_custom_objects_api self) (get_request self name namespace)
  = Ok doc ->
  sandboxset_document doc = true ->
  (forall v, spec_replicas doc = Some v ->
             outcome (get_sandboxset_replicas self name namespace) = Ok v)
  /\ (spec_replicas doc = None ->
      outcome (get_sandboxset_replicas self name namespace) = Ok (PyInt 0)).
Proof.
  intros Hget Hdoc.
  unfold get_sandboxset_replicas, get_sandboxset.
  rewrite get_resource_unfold, Hget.
  destruct doc as [| | | | | |d]; try discriminate.
  unfold outcome, spec_replicas, sandboxset_document in *. simpl.
  unfold dict_get.
  destruct (dict_lookup d "spec") as [spec|]; simpl.
  - destruct spec as [| | | | | |sp]; try discriminate. simpl. unfold dict_get.
    split.
    + now intros v ->.
    + now intros ->.
  - split; [discriminate | reflexivity].
Qed.

(** The documents of the unit tests: [spec.replicas] is 3, and [spec] is
    empty. *)
Lemma get_sandboxset_replicas_reads_spec_witness :
  outcome (get_sandboxset_replicas
             (sandboxset_client_answering
                (Ok (sandboxset_with_spec [("replicas", PyInt 3)])))
             "test-sandboxset" None)
  = Ok (PyInt 3)
  /\ outcome (get_sandboxset_replicas
                (sandboxset_client_answering (Ok (sandboxset_with_spec [])))
                "test-sandboxset" None)
     = Ok (PyInt 0).
Proof.
  split.
  - apply (proj1 (get_sandboxset_replicas_reads_spec
                    (sandboxset_client_answering
                       (Ok (sandboxset_with_spec [("replicas", PyInt 3)])))
                    "test-sandboxset" None _ eq_refl eq_refl)).
    reflexivity.
  - apply (proj2 (get_sandboxset_replicas_reads_spec
                    (sandboxset_client_answering (Ok (sandboxset_with_spec [])))
                    "test-sandboxset" None _ eq_refl eq_refl)).
    reflexivity.
Defined.

(** *** Namespace resolution *)

Lemma py_or_some (ns default : string) :
  ns <> "" -> py_or (Some ns) default = ns.
Proof.
  intros H. unfold py_or.
  destruct (String.eqb ns "") eqn:E; [|reflexivity].
  apply String.eqb_eq in E. contradiction.
Qed.

(** Resolving a resolved namespace again changes nothing:
    [wait_for_resource_condition] resolves, and so does the
    [watch_resources] it calls. *)
Lemma py_or_twice (namespace : option string) (default : string) :
  py_or (Some (py_or namespace default)) default = py_or namespace default.
Proof.
  unfold py_or at 1.
  destruct (String.eqb (py_or namespace default) "") eqn:E; [|reflexivity].
  apply String.eqb_eq in E. rewrite E.
  unfold py_or in E. destruct namespace as [s|]; [|assumption].
  destruct (String.eqb s "") eqn:Es; [assumption|].
  subst s. discriminate.
Qed.

(** Every operation sends one request, to the resolved namespace. *)
Lemma requests_sent_resolved (self : BaseCustomResourceClient) (op : operation)
    (namespace : option string) :
  exists req,
    requests_sent self op namespace = [req]
    /\ request_namespace req = py_or namespace (self_namespace self).
Proof.
  destruct op; try (eexists; split; reflexivity).
  eexists; split; [reflexivity|]. simpl. apply py_or_twice.
Qed.

Lemma all_target_resolved (self : BaseCustomResourceClient) (op : operation)
    (namespace : option string) :
  all_target (py_or namespace (self_namespace self))
    (requests_sent self op namespace).
Proof.
  destruct (requests_sent_resolved self op namespace) as (req & -> & Hns).
  split; [discriminate|]. constructor; [assumption|constructor].
Qed.

(** C8, as worded, fails: a get called with the namespace [""] on a client
    configured for [test-namespace] targets [test-namespace]. *)
Lemma provided_namespace_always_targeted_fails :
  ~ provided_namespace_always_targeted.
Proof.
  intros H.
  destruct (H (sandbox_client_answering (Ok PyNone)) (Get "test-sandbox") "")
    as [_ Hall].
  inversion Hall as [|req reqs Hns _]. discriminate Hns.
Qed.

(** C8, amended: every operation of the base client sends its request to the
    per-call namespace when one is given and is not the empty string, and to
    the namespace the client was configured with when none is given. *)
Theorem namespace_argument_overrides_default
    (self : BaseCustomResourceClient) (op : operation) :
  (forall ns, ns <> "" -> all_target ns (requests_sent self op (Some ns)))
  /\ all_target (self_namespace self) (requests_sent self op None).
Proof.
  split.
  - intros ns Hns.
    rewrite <- (py_or_some ns (self_namespace self) Hns) at 1.
    apply all_target_resolved.
  - apply (all_target_resolved self op None).
Qed.

(** The override of the unit tests: a get in [other-namespace] on a client
    configured for [test-namespace]. *)
Lemma namespace_argument_overrides_default_witness :
  all_target "other-namespace"
    (requests_sent (sandboxset_client_answering (Ok PyNone))
       (Get "existing-sandboxset") (Some "other-namespace")).
Proof.
  apply (proj1 (namespace_argument_overrides_default
                  (sandboxset_client_answering (Ok PyNone))
                  (Get "existing-sandboxset"))).
  discriminate.
Defined.

(** C9: for every operation of the base client, the empty string as per-call
    namespace sends the same request as no per-call namespace, and that
    request targets the namespace the client was configured with. *)
Theorem empty_namespace_does_not_override
    (self : BaseCustomResourceClient) (op : operation) :
  requests_sent self op (Some "") = requests_sent self op None
  /\ all_target (self_namespace self) (requests_sent self op (Some "")).
Proof.
  split.
  - destruct op; reflexivity.
  - apply (all_target_resolved self op (Some "")).
Qed.

(** *** Typed create helpers *)

Lemma dict_lookup_set_same (d : dict) (key : string) (value : pyval) :
  dict_lookup (openkruise.dict_set d key value) key = Some value.
Proof.
  induction d as [|[k v] rest IH]; simpl.
  - now rewrite String.eqb_refl.
  - destruct (String.eqb k key) eqn:E; simpl; rewrite E; auto.
Qed.

Lemma dict_lookup_set_other (d : dict) (key key' : string) (value : pyval) :
  key <> key' ->
  dict_lookup (openkruise.dict_set d key value) key' = dict_lookup d key'.
Proof.
  intros Hne. induction d as [|[k v] rest IH]; simpl.
  - apply String.eqb_neq in Hne. now rewrite Hne.
  - destruct (String.eqb k key) eqn:E; simpl.
    + apply String.eqb_eq in E. subst k.
      apply String.eqb_neq in Hne. now rewrite Hne.
    + now rewrite IH.
Qed.

(** C4: on the body each typed create helper sends.  [create_sandbox] binds
    [apiVersion] and [kind] to the two strings; [create_sandboxset] and
    [create_sandboxclaim] bind them to one-element tuples that hold the
    strings. *)
Theorem typed_create_stamps
    (api : CustomObjectsApi) (namespace : option string) (m : openkruise.model) :
  (exists req body,
      sent (openkruise.create_sandbox (openkruise.SandboxClient api namespace) m)
      = [req]
      /\ request_body req = Some body
      /\ py_getitem body "apiVersion" = Ok (PyStr "agents.kruise.io/v1alpha1")
      /\ py_getitem body "kind" = Ok (PyStr "Sandbox"))
  /\ (exists req body,
         sent (openkruise.create_sandboxset
                 (openkruise.SandboxSetClient api namespace) m) = [req]
         /\ request_body req = Some body
         /\ py_getitem body "apiVersion"
            = Ok (PyTuple [PyStr "agents.kruise.io/v1alpha1"])
         /\ py_getitem body "kind" = Ok (PyTuple [PyStr "SandboxSet"]))
  /\ (exists req body,
         sent (openkruise.create_sandboxclaim
                 (openkruise.SandboxClaimClient api namespace) m) = [req]
         /\ request_body req = Some body
         /\ py_getitem body "apiVersion"
            = Ok (PyTuple [PyStr "agents.kruise.io/v1alpha1"])
         /\ py_getitem body "kind" = Ok (PyTuple [PyStr "SandboxClaim"])).
Proof.
  assert (forall d va vk,
             py_getitem
               (PyDict (openkruise.dict_set
                          (openkruise.dict_set d "apiVersion" va) "kind" vk))
               "apiVersion" = Ok va
             /\ py_getitem
                  (PyDict (openkruise.dict_set
                             (openkruise.dict_set d "apiVersion" va) "kind" vk))
                  "kind" = Ok vk) as Hstamp.
  { intros d va vk. unfold py_getitem, dict_getitem.
    rewrite dict_lookup_set_other by discriminate.
    now rewrite !dict_lookup_set_same. }
  repeat apply conj; eexists _, _;
    (split; [reflexivity|]); (split; [reflexivity|]); apply Hstamp.
Qed.

(** *** Waiting for a condition *)

Lemma condition_test_is_condition (d : dict) (condition_type condition_status : string) :
  py_eq_str (dict_get d "type" PyNone) condition_type
  && py_eq_str (dict_get d "status" PyNone) condition_status
  = is_condition condition_type condition_status (PyDict d).
Proof.
  unfold is_condition, dict_get.
  destruct (dict_lookup d "type") as [[| | |t| | |]|];
    destruct (dict_lookup d "status") as [[| | |s| | |]|];
    simpl; try reflexivity; now rewrite andb_false_r.
Qed.

(** On a list of objects the inner loop finds an entry with the requested
    pair exactly when there is one. *)
Lemma scan_conditions_objects (l : list pyval)
    (condition_type condition_status : string) :
  forallb is_dict l = true ->
  scan_conditions l condition_type condition_status
  = Ok (existsb (is_condition condition_type condition_status) l).
Proof.
  induction l as [|c l IH]; simpl; intros H; [reflexivity|].
  split_andb H.
  destruct c as [| | | | | |d]; try discriminate.
  rewrite <- condition_test_is_condition. simpl.
  destruct (py_eq_str (dict_get d "type" PyNone) condition_type); simpl; auto.
  destruct (py_eq_str (dict_get d "status" PyNone) condition_status); simpl; auto.
Qed.

(** On a well-formed document the inspection raises nothing and finds the
    requested condition exactly when the document has it. *)
Lemma has_condition_well_formed (resource : pyval)
    (condition_type condition_status : string) :
  well_formed_resource resource = true ->
  has_condition resource condition_type condition_status
  = Ok (has_matching_condition resource condition_type condition_status).
Proof.
  destruct resource as [| | | | | |r]; try discriminate.
  unfold well_formed_resource, has_condition, has_matching_condition,
    status_conditions.
  simpl. unfold dict_mem, dict_getitem.
  destruct (dict_lookup r "status") as [status|]; simpl; [|reflexivity].
  destruct status as [| | |s| | |st]; try discriminate; simpl.
  - intros H. apply negb_true_iff in H. now rewrite H.
  - unfold dict_mem, dict_getitem.
    destruct (dict_lookup st "conditions") as [conds|]; simpl; [|reflexivity].
    destruct conds as [| | | |l| |]; try discriminate; simpl.
    apply scan_conditions_objects.
Qed.

Section WaitLoop.

Variables (clock : nat -> Q) (end_time : Q).
Variables (name condition_type condition_status ns : string).

Local Abbreviation loop seen events :=
  (wait_loop clock end_time seen events name condition_type condition_status ns).

(** One turn of the loop on an event without the condition. *)
Lemma wait_loop_quiet_step (seen : nat) (event : dict) (rest : list dict) :
  quiet_event condition_type condition_status event = true ->
  loop seen (event :: rest)
  = if past (clock (S seen)) end_time then
      Raise (TimeoutError
               ("Timeout waiting for condition " ++ condition_type ++ "="
                ++ condition_status ++ " for resource " ++ name
                ++ " in namespace " ++ ns))
    else loop (S seen) rest.
Proof.
  unfold quiet_event. simpl. unfold dict_getitem.
  destruct (dict_lookup event "object") as [resource|]; [|discriminate].
  intros H. split_andb H.
  apply negb_true_iff in H1. simpl.
  now rewrite (has_condition_well_formed _ _ _ H0), H1.
Qed.

(** One turn of the loop on an event with the condition. *)
Lemma wait_loop_match_step (seen : nat) (event : dict) (rest : list dict)
    (resource : pyval) :
  matching_event condition_type condition_status event = true ->
  dict_lookup event "object" = Some resource ->
  loop seen (event :: rest) = Ok resource.
Proof.
  unfold matching_event. simpl. unfold dict_getitem.
  intros H Hobj. rewrite Hobj in *.
  split_andb H. simpl.
  now rewrite (has_condition_well_formed _ _ _ H0), H1.
Qed.

(** Events without the condition lead to a timeout or are passed over. *)
Lemma wait_loop_quiet_prefix (before rest : list dict) (seen : nat) :
  forallb (quiet_event condition_type condition_status) before = true ->
  timed_out (loop seen (before ++ rest))
  \/ loop seen (before ++ rest) = loop (seen + length before) rest.
Proof.
  revert seen.
  induction before as [|event before IH]; cbn [app length forallb];
    intros seen H.
  - right. now rewrite Nat.add_0_r.
  - split_andb H.
    rewrite (wait_loop_quiet_step _ _ _ H0).
    destruct (past (clock (S seen)) end_time).
    + left. eexists. reflexivity.
    + rewrite <- Nat.add_succ_comm. now apply IH.
Qed.

(** They are passed over when the deadline test does not fire on them. *)
Lemma wait_loop_quiet_in_time (before rest : list dict) (seen : nat) :
  forallb (quiet_event condition_type condition_status) before = true ->
  (forall k, (seen < k <= seen + length before)%nat ->
             past (clock k) end_time = false) ->
  loop seen (before ++ rest) = loop (seen + length before) rest.
Proof.
  revert seen.
  induction before as [|event before IH]; cbn [app length forallb];
    intros seen H Hk.
  - now rewrite Nat.add_0_r.
  - split_andb H.
    rewrite (wait_loop_quiet_step _ _ _ H0).
    rewrite (Hk (S seen)) by lia.
    rewrite <- Nat.add_succ_comm. apply IH; [assumption|].
    intros k Hrange. apply Hk. lia.
Qed.

(** A stream without the condition ends in a timeout. *)
Lemma wait_loop_all_quiet (events : list dict) (seen : nat) :
  forallb (quiet_event condition_type condition_status) events = true ->
  timed_out (loop seen events).
Proof.
  intros H.
  destruct (wait_loop_quiet_prefix events [] seen H) as [Ht|E];
    rewrite app_nil_r in *; [assumption|].
  rewrite E. eexists. reflexivity.
Qed.

End WaitLoop.

(** The call runs the loop on what the generator yields of the events
    delivered for [name], against the deadline, from the first event on. *)
Lemma wait_for_resource_condition_unfold
    (self : BaseCustomResourceClient) (clock : nat -> Q)
    (name condition_type : string) (condition_status : option string)
    (timeout : option Z) (namespace : option string) :
  outcome (wait_for_resource_condition self clock name condition_type
             condition_status timeout namespace)
  = wait_loop clock (deadline clock timeout) 0
      (yield_events (delivered_for self name namespace))
      name condition_type (requested_status condition_status)
      (py_or namespace (self_namespace self)).
Proof. reflexivity. Qed.

(** The wording "fails with Timeout whenever no event carries a matching
    condition within the timeout budget" does not hold of the code: the only
    event has the condition and is delivered when the clock reads 1000, past
    the deadline of 300, and the call returns its document. *)
Lemma timeout_whenever_no_match_in_budget_fails :
  ~ timeout_whenever_no_match_in_budget.
Proof.
  intros H.
  destruct (H (watching [watch_event "MODIFIED" (sandbox_with_ready "True")])
              late_clock "test-sandbox" "Ready" None None None) as [msg Hmsg].
  - reflexivity.
  - intros k event _ _. reflexivity.
  - discriminate Hmsg.
Qed.

(** C2: the code at the failing input.  The call starts when the clock
    reads 0, with the default timeout of 300 seconds; the watch delivers one
    event, whose object has [Ready=True], when the clock reads 1000.  The
    deadline has passed, and the call returns the document: it does not
    raise [TimeoutError]. *)
Theorem late_match_is_returned :
  past (late_clock 1) (deadline late_clock None) = true
  /\ outcome (wait_for_resource_condition
                (watching [watch_event "MODIFIED" (sandbox_with_ready "True")])
                late_clock "test-sandbox" "Ready" None None None)
     = Ok (sandbox_with_ready "True")
  /\ ~ timed_out
        (outcome (wait_for_resource_condition
                    (watching
                       [watch_event "MODIFIED" (sandbox_with_ready "True")])
                    late_clock "test-sandbox" "Ready" None None None)).
Proof.
  repeat apply conj; try reflexivity.
  intros [msg H]. discriminate H.
Qed.

(** C3, as worded, fails: the sandbox is seen not ready when the clock reads
    1000, past the deadline of 300, and the call raises [TimeoutError]
    although the next event has the condition. *)
Lemma returns_first_match_always_fails :
  ~ returns_first_match_always.
Proof.
  intros H.
  specialize (H (watching pending_then_ready) late_clock "test-sandbox" "Ready"
                None None None
                [watch_event "ADDED" (sandbox_with_ready "False")]
                [] (watch_event "MODIFIED" (sandbox_with_ready "True"))
                (sandbox_with_ready "True")
                eq_refl eq_refl eq_refl eq_refl).
  discriminate H.
Qed.

(** C3, amended: when the watch delivers an event whose object is a
    well-formed document that has a [status.conditions] entry with the
    requested type and status, the events before it are well-formed
    documents without such an entry and are not of type ERROR, and the clock
    is not past the deadline when each of them has been handled nor when the
    matching event is delivered, then [wait_for_resource_condition] returns
    the document of that first matching event. *)
Theorem wait_for_resource_condition_returns_first_match
    (self : BaseCustomResourceClient) (clock : nat -> Q)
    (name condition_type : string) (condition_status : option string)
    (timeout : option Z) (namespace : option string)
    (before after : list dict) (event : dict) (resource : pyval) :
  delivered_for self name namespace = (before ++ event :: after)%list ->
  forallb (quiet_event condition_type (requested_status condition_status))
    before = true ->
  existsb is_error_event before = false ->
  (forall k, (1 <= k <= S (length before))%nat ->
             past (clock k) (deadline clock timeout) = false) ->
  matching_event condition_type (requested_status condition_status) event
  = true ->
  dict_lookup event "object" = Some resource ->
  outcome (wait_for_resource_condition self clock name condition_type
             condition_status timeout namespace) = Ok resource.
Proof.
  intros E Hquiet Herr Hclock Hmatch Hobj.
  rewrite wait_for_resource_condition_unfold, E.
  rewrite yield_events_app_quiet by assumption.
  cbn [yield_events].
  rewrite wait_loop_quiet_in_time; [|assumption|].
  - now apply wait_loop_match_step.
  - intros k Hk. apply Hclock. lia.
Qed.

(** The sandbox is seen not ready, then ready, and the clock stands still. *)
Lemma wait_for_resource_condition_returns_first_match_witness :
  outcome (wait_for_resource_condition (watching pending_then_ready)
             still_clock "test-sandbox" "Ready" None None None)
  = Ok (sandbox_with_ready "True").
Proof.
  apply (wait_for_resource_condition_returns_first_match
           (watching pending_then_ready) still_clock "test-sandbox" "Ready"
           None None None
           [watch_event "ADDED" (sandbox_with_ready "False")] []
           (watch_event "MODIFIED" (sandbox_with_ready "True"))
           (sandbox_with_ready "True")); reflexivity.
Defined.

(** *** Remarks on the provisos *)

(** An ERROR event before the matching event ends the watch: the clock
    stands still, and the call still raises [TimeoutError]. *)
Example error_event_hides_later_match :
  outcome (wait_for_resource_condition (watching interrupted) still_clock
             "test-sandbox" "Ready" None None None)
  = Raise (TimeoutError
             "Unable to find resource test-sandbox in namespace default").
Proof. reflexivity. Qed.

(** An event without [object] is not handled: the subscript raises. *)
Example event_without_object_raises :
  outcome (wait_for_resource_condition
             (watching [[("type", PyStr "BOOKMARK")]]) still_clock
             "test-sandbox" "Ready" None None None)
  = Raise (KeyError "object").
Proof. reflexivity. Qed.

(** A document whose [spec] is [None] is not a stored SandboxSet document:
    the second [.get] has no receiver. *)
Example null_spec_raises :
  outcome (get_sandboxset_replicas
             (sandboxset_client_answering (Ok (PyDict [("spec", PyNone)])))
             "test-sandboxset" None)
  = Raise AttributeError.
Proof. reflexivity. Qed.

(** ** Further properties *)

(** *** The watch generator, continued *)

(** X1: what [watch_resources] has yielded of the events delivered so far
    stays as it is when the server delivers more: the sequence for a longer
    stream starts with the sequence for the shorter one, and adds nothing to
    it once an ERROR event has been yielded. *)
Theorem yield_events_extends (events more : list dict) :
  (exists tail,
      yield_events (events ++ more) = (yield_events events ++ tail)%list)
  /\ (existsb is_error_event events = true ->
      yield_events (events ++ more) = yield_events events)
  /\ (existsb is_error_event events = false ->
      yield_events (events ++ more) = (events ++ yield_events more)%list).
Proof.
  split; [|split].
  - destruct (existsb is_error_event events) eqn:E.
    + exists []. rewrite app_nil_r. now apply yield_events_app_error.
    + exists (yield_events more).
      rewrite yield_events_app_quiet by assumption.
      now rewrite (yield_events_all events E).
  - apply yield_events_app_error.
  - apply yield_events_app_quiet.
Qed.

(** After ADDED and ERROR a further MODIFIED event is not yielded; after
    ADDED alone it is. *)
Lemma yield_events_extends_witness :
  yield_events
    ([watch_event "ADDED" (sandbox_with_ready "False");
      watch_event "ERROR" failure_status]
     ++ [watch_event "MODIFIED" (sandbox_with_ready "True")])
  = [watch_event "ADDED" (sandbox_with_ready "False");
     watch_event "ERROR" failure_status]
  /\ yield_events
       ([watch_event "ADDED" (sandbox_with_ready "False")]
        ++ [watch_event "MODIFIED" (sandbox_with_ready "True")])
     = pending_then_ready.
Proof.
  split.
  - exact (proj1 (proj2 (yield_events_extends
                           [watch_event "ADDED" (sandbox_with_ready "False");
                            watch_event "ERROR" failure_status]
                           [watch_event "MODIFIED" (sandbox_with_ready "True")]))
             eq_refl).
  - exact (proj2 (proj2 (yield_events_extends
                           [watch_event "ADDED" (sandbox_with_ready "False")]
                           [watch_event "MODIFIED" (sandbox_with_ready "True")]))
             eq_refl).
Defined.

(** *** Getting, continued *)

Lemma get_sends_once (self : BaseCustomResourceClient) (name : string)
    (namespace : option string) :
  sent (get_sandbox self name namespace) = [get_request self name namespace]
  /\ sent (get_sandboxset self name namespace)
     = [get_request self name namespace].
Proof.
  unfold get_sandbox, get_sandboxset. rewrite get_resource_unfold.
  destruct (respond (self_custom_objects_api self)
              (get_request self name namespace)) as [doc|e].
  - split; reflexivity.
  - assert (forall A (log : list request) (x y : call A) (b : bool),
               fst x = log -> fst y = log ->
               sent (if b then x else y) = log) as Hif
        by (intros A log x y []; auto).
    split; destruct e; try reflexivity; apply Hif; reflexivity.
Qed.

Lemma get_returns_document (self : BaseCustomResourceClient) (name : string)
    (namespace : option string) (doc : pyval) :
  respond (self_custom_objects_api self) (get_request self name namespace)
  = Ok doc ->
  outcome (get_sandbox self name namespace) = Ok doc
  /\ outcome (get_sandboxset self name namespace) = Ok doc.
Proof.
  intros H. unfold get_sandbox, get_sandboxset.
  rewrite get_resource_unfold, H. split; reflexivity.
Qed.

(** X2: [get_sandbox] and [get_sandboxset] send the one get request whatever
    the answer is, and hand a document the transport answers with to the
    caller as it is. *)
Theorem get_passes_document_through
    (self : BaseCustomResourceClient) (name : string)
    (namespace : option string) :
  sent (get_sandbox self name namespace) = [get_request self name namespace]
  /\ sent (get_sandboxset self name namespace)
     = [get_request self name namespace]
  /\ (forall doc,
         respond (self_custom_objects_api self)
           (get_request self name namespace) = Ok doc ->
         outcome (get_sandbox self name namespace) = Ok doc
         /\ outcome (get_sandboxset self name namespace) = Ok doc).
Proof.
  destruct (get_sends_once self name namespace) as [H1 H2].
  repeat apply conj; try assumption.
  intros doc. apply get_returns_document.
Qed.

(** The answer of the unit test [test_get_sandbox_success]. *)
Lemma get_passes_document_through_witness :
  outcome (get_sandbox
             (sandbox_client_answering
                (Ok (PyDict [("metadata",
                              PyDict [("name", PyStr "existing-sandbox")]);
                             ("spec", PyDict []); ("status", PyDict [])])))
             "existing-sandbox" None)
  = Ok (PyDict [("metadata", PyDict [("name", PyStr "existing-sandbox")]);
                ("spec", PyDict []); ("status", PyDict [])]).
Proof.
  apply (proj2 (proj2 (get_passes_document_through
                         (sandbox_client_answering
                            (Ok (PyDict
                                   [("metadata",
                                     PyDict [("name", PyStr "existing-sandbox")]);
                                    ("spec", PyDict []); ("status", PyDict [])])))
                         "existing-sandbox" None))).
  reflexivity.
Defined.

(** X3: [get_sandboxset_replicas] has no default for a SandboxSet that
    cannot be read: it sends the one get request, raises what
    [get_sandboxset] raises (the not-found exception on a 404), and raises
    [AttributeError] on an answer that is not an object. *)
Theorem get_sandboxset_replicas_failures
    (self : BaseCustomResourceClient) (name : string)
    (namespace : option string) :
  sent (get_sandboxset_replicas self name namespace)
  = [get_request self name namespace]
  /\ (forall e,
         outcome (get_sandboxset self name namespace) = Raise e ->
         outcome (get_sandboxset_replicas self name namespace) = Raise e)
  /\ (forall reason,
         respond (self_custom_objects_api self)
           (get_request self name namespace)
         = Raise (ApiException (Some 404%Z) reason) ->
         outcome (get_sandboxset_replicas self name namespace)
         = Raise (SandboxSetNotFoundException
                    ("SandboxSet '" ++ name ++ "' not found in namespace '"
                     ++ py_or namespace (self_namespace self) ++ "'")))
  /\ (forall doc,
         respond (self_custom_objects_api self)
           (get_request self name namespace) = Ok doc ->
         is_dict doc = false ->
         outcome (get_sandboxset_replicas self name namespace)
         = Raise AttributeError).
Proof.
  destruct (get_sends_once self name namespace) as [_ Hsent].
  pose proof (get_returns_document self name namespace) as Hok.
  unfold get_sandboxset_replicas.
  destruct (get_sandboxset self name namespace) as [log [doc|e]] eqn:Hget;
    unfold sent, outcome in *; simpl in *; subst log.
  - split; [reflexivity|]. split; [discriminate|]. split.
    + intros reason H. exfalso.
      unfold get_sandboxset in Hget. rewrite get_resource_unfold, H in Hget.
      discriminate Hget.
    + intros doc' H Hd. destruct (Hok doc' H) as [_ E].
      injection E as ->. now destruct doc'.
  - split; [reflexivity|]. split; [now intros e' H|]. split.
    + intros reason H.
      unfold get_sandboxset in Hget. rewrite get_resource_unfold, H in Hget.
      simpl in Hget. now injection Hget as <-.
    + intros doc H _. destruct (Hok doc H) as [_ E]. discriminate E.
Qed.

(** A SandboxSet that is not there, and an answer that is a list. *)
Lemma get_sandboxset_replicas_failures_witness :
  outcome (get_sandboxset_replicas
             (sandboxset_client_answering
                (Raise (ApiException (Some 404%Z) "Not Found")))
             "non-existing-sandboxset" None)
  = Raise (SandboxSetNotFoundException
             "SandboxSet 'non-existing-sandboxset' not found in namespace 'test-namespace'")
  /\ outcome (get_sandboxset_replicas
                (sandboxset_client_answering (Ok (PyList [])))
                "test-sandboxset" None)
     = Raise AttributeError.
Proof.
  split.
  - apply (proj1 (proj2 (proj2 (get_sandboxset_replicas_failures
                                  (sandboxset_client_answering
                                     (Raise (ApiException (Some 404%Z) "Not Found")))
                                  "non-existing-sandboxset" None)))
             "Not Found").
    reflexivity.
  - apply (proj2 (proj2 (proj2 (get_sandboxset_replicas_failures
                                  (sandboxset_client_answering (Ok (PyList [])))
                                  "test-sandboxset" None)))
             (PyList [])); reflexivity.
Defined.

(** *** Pass-through *)

(** X4: each operation of the base client that makes one call sends one
    request, which names the group, version and plural the client was built
    with and the resolved namespace and carries the body it was given
    unchanged, and returns what the transport answers, a document or an
    exception, as it is. *)
Theorem base_operations_pass_through
    (self : BaseCustomResourceClient) (op : operation)
    (namespace : option string) (c : call pyval) :
  unary_call self op namespace = Some c ->
  exists req,
    sent c = [req]
    /\ outcome c = respond (self_custom_objects_api self) req
    /\ request_coordinate req = client_coordinate self
    /\ request_namespace req = py_or namespace (self_namespace self)
    /\ request_body req = operation_body op.
Proof.
  destruct op; simpl; intros H; try discriminate;
    injection H as <-; eexists; repeat apply conj; reflexivity.
Qed.

(** The update of the unit test [test_update_sandbox], answered with a
    conflict. *)
Lemma base_operations_pass_through_witness :
  exists req,
    sent (update_resource
            (sandbox_client_answering (Raise (ApiException (Some 409%Z) "Conflict")))
            "test-sandbox" (PyDict [("spec", PyDict [("paused", PyBool true)])])
            None) = [req]
    /\ outcome (update_resource
                  (sandbox_client_answering
                     (Raise (ApiException (Some 409%Z) "Conflict")))
                  "test-sandbox"
                  (PyDict [("spec", PyDict [("paused", PyBool true)])]) None)
       = Raise (ApiException (Some 409%Z) "Conflict")
    /\ request_coordinate req = ("agents.kruise.io", "v1alpha1", "sandboxes")
    /\ request_namespace req = "test-namespace"
    /\ request_body req
       = Some (PyDict [("spec", PyDict [("paused", PyBool true)])]).
Proof.
  exact (base_operations_pass_through
           (sandbox_client_answering (Raise (ApiException (Some 409%Z) "Conflict")))
           (Update "test-sandbox"
              (PyDict [("spec", PyDict [("paused", PyBool true)])]))
           None _ eq_refl).
Defined.

(** X5: a patch sent without a content type names
    [application/merge-patch+json], a patch sent with one names that one, and
    an update names none; the three are otherwise the same request.  The
    patch methods of the two specialised clients do as the base one, and
    [scale_sandboxset] sends what [update_sandboxset] sends for the body
    [{"spec": {"replicas": N}}], with no content type. *)
Theorem patch_content_type
    (self : BaseCustomResourceClient) (name : string) (body : pyval)
    (namespace : option string) :
  let patch content_type :=
    patch_namespaced_custom_object
      (self_api_group self) (self_api_version self)
      (py_or namespace (self_namespace self)) (self_plural self)
      name body content_type in
  sent (patch_resource self name body namespace None)
  = [patch (Some "application/merge-patch+json")]
  /\ (forall content_type,
         sent (patch_resource self name body namespace (Some content_type))
         = [patch (Some content_type)])
  /\ sent (update_resource self name body namespace) = [patch None]
  /\ (forall content_type,
         sent (patch_sandbox self name body namespace content_type)
         = sent (patch_resource self name body namespace content_type)
         /\ sent (patch_sandboxset self name body namespace content_type)
            = sent (patch_resource self name body namespace content_type))
  /\ (forall replicas,
         scale_sandboxset self name replicas namespace
         = update_sandboxset self name
             (PyDict [("spec", PyDict [("replicas", PyInt replicas)])])
             namespace).
Proof.
  cbv zeta. repeat apply conj; try reflexivity.
  intros [c|]; split; reflexivity.
Qed.

(** *** The specialised clients *)

(** X6: every method of a [SandboxClient] sends the request the base
    operation sends, one request, to the group [agents.kruise.io], the
    version [v1alpha1] and the plural [sandboxes], in the namespace given to
    the call, or else to the constructor, or else [default]. *)
Theorem sandbox_client_coordinates
    (api : CustomObjectsApi) (configured : option string) (op : operation)
    (namespace : option string) :
  let self := SandboxClient api configured in
  sandbox_requests_sent self op namespace = requests_sent self op namespace
  /\ exists req,
       sandbox_requests_sent self op namespace = [req]
       /\ request_coordinate req = ("agents.kruise.io", "v1alpha1", "sandboxes")
       /\ request_namespace req
          = py_or namespace
              (match configured with Some n => n | None => "default" end).
Proof.
  cbv zeta.
  assert (sandbox_requests_sent (SandboxClient api configured) op namespace
          = requests_sent (SandboxClient api configured) op namespace) as E.
  { destruct op; try reflexivity.
    apply (proj1 (get_sends_once _ _ _)). }
  split; [exact E|]. rewrite E.
  destruct (requests_sent_resolved (SandboxClient api configured) op namespace)
    as (req & Hreq & Hns).
  exists req. repeat apply conj; [assumption| |exact Hns].
  destruct op; simpl in Hreq; injection Hreq as <-; reflexivity.
Qed.

(** X7: every method of a [SandboxSetClient] sends the request the base
    operation sends, one request, to the group [agents.kruise.io], the
    version [v1alpha1] and the plural [sandboxsets], in the namespace given
    to the call, or else to the constructor, or else [default]. *)
Theorem sandboxset_client_coordinates
    (api : CustomObjectsApi) (configured : option string) (op : operation)
    (namespace : option string) :
  let self := SandboxSetClient api configured in
  sandboxset_requests_sent self op namespace = requests_sent self op namespace
  /\ exists req,
       sandboxset_requests_sent self op namespace = [req]
       /\ request_coordinate req
          = ("agents.kruise.io", "v1alpha1", "sandboxsets")
       /\ request_namespace req
          = py_or namespace
              (match configured with Some n => n | None => "default" end).
Proof.
  cbv zeta.
  assert (sandboxset_requests_sent (SandboxSetClient api configured) op namespace
          = requests_sent (SandboxSetClient api configured) op namespace) as E.
  { destruct op; try reflexivity.
    apply (proj2 (get_sends_once _ _ _)). }
  split; [exact E|]. rewrite E.
  destruct (requests_sent_resolved (SandboxSetClient api configured) op namespace)
    as (req & Hreq & Hns).
  exists req. repeat apply conj; [assumption| |exact Hns].
  destruct op; simpl in Hreq; injection Hreq as <-; reflexivity.
Qed.

(** *** Waiting, continued *)

(** The inner loop raises nothing but [AttributeError]. *)
Lemma scan_conditions_raises (l : list pyval)
    (condition_type condition_status : string) (e : exn) :
  scan_conditions l condition_type condition_status = Raise e ->
  e = AttributeError.
Proof.
  induction l as [|c l IH]; simpl; [discriminate|].
  destruct c; simpl; try (intros H; now injection H as <-).
  destruct (py_eq_str _ condition_type); [|exact IH].
  destruct (py_eq_str _ condition_status); [discriminate|exact IH].
Qed.

(** X9: the inspection of an event's object raises nothing but
    [TypeError] and [AttributeError], whatever the object is; it never raises
    [KeyError], for it subscripts [status] and [conditions] only after the
    [in] test has found them. *)
Theorem has_condition_raises (resource : pyval)
    (condition_type condition_status : string) (e : exn) :
  has_condition resource condition_type condition_status = Raise e ->
  e = TypeError \/ e = AttributeError.
Proof.
  assert (forall conds,
             (items <- py_iter conds ;;
              scan_conditions items condition_type condition_status) = Raise e ->
             e = TypeError \/ e = AttributeError) as Hiter.
  { intros conds. destruct conds; simpl;
      try (intros H; injection H as <-; now left);
      intros H; right; now apply scan_conditions_raises in H. }
  assert (forall status,
             (has_conditions <- py_contains "conditions" status ;;
              if has_conditions then
                (conditions <- py_getitem status "conditions" ;;
                 items <- py_iter conditions ;;
                 scan_conditions items condition_type condition_status)
              else Ok false) = Raise e ->
             e = TypeError \/ e = AttributeError) as Hstatus.
  { intros status. destruct status as [| | |s|l|l|st]; simpl;
      try (intros H; injection H as <-; now left).
    - destruct (is_substring "conditions" s); simpl; [|discriminate].
      intros H; injection H as <-; now left.
    - destruct (existsb _ l); simpl; [|discriminate].
      intros H; injection H as <-; now left.
    - destruct (existsb _ l); simpl; [|discriminate].
      intros H; injection H as <-; now left.
    - unfold dict_mem, dict_getitem.
      destruct (dict_lookup st "conditions") as [conds|]; simpl;
        [apply Hiter|discriminate]. }
  unfold has_condition.
  destruct resource as [| | |s|l|l|r]; simpl;
    try (intros H; injection H as <-; now left).
  - destruct (is_substring "status" s); simpl; [|discriminate].
    intros H; injection H as <-; now left.
  - destruct (existsb _ l); simpl; [|discriminate].
    intros H; injection H as <-; now left.
  - destruct (existsb _ l); simpl; [|discriminate].
    intros H; injection H as <-; now left.
  - unfold dict_mem, dict_getitem.
    destruct (dict_lookup r "status") as [status|]; simpl;
      [apply Hstatus|discriminate].
Qed.

(** A document whose [status] is [None], and one whose condition entry is a
    string. *)
Lemma has_condition_raises_witness :
  (TypeError = TypeError \/ TypeError = AttributeError)
  /\ (AttributeError = TypeError \/ AttributeError = AttributeError).
Proof.
  split.
  - exact (has_condition_raises (PyDict [("status", PyNone)])
             "Ready" "True" TypeError eq_refl).
  - exact (has_condition_raises
             (PyDict [("status",
                       PyDict [("conditions", PyList [PyStr "Ready"])])])
             "Ready" "True" AttributeError eq_refl).
Defined.

(** What the generator has yielded at a position is what was delivered
    there, after events that are not of type ERROR. *)
Lemma yield_events_nth (events : list dict) (k : nat) (event : dict) :
  nth_error (yield_events events) k = Some event ->
  nth_error events k = Some event
  /\ existsb is_error_event (firstn k events) = false
  /\ firstn k (yield_events events) = firstn k events.
Proof.
  revert k. induction events as [|e rest IH]; intros k; simpl.
  - destruct k; discriminate.
  - destruct k as [|k]; simpl; [auto|].
    destruct (is_error_event e).
    + destruct k; discriminate.
    + intros H. destruct (IH k H) as (H1 & H2 & H3).
      repeat apply conj; auto. now rewrite H3.
Qed.

Section WaitLoopOutcomes.

Variables (clock : nat -> Q).
Variables (name condition_type condition_status ns : string).

Local Abbreviation loop end_time seen events :=
  (wait_loop clock end_time seen events name condition_type condition_status ns).

(** A document the loop returns is the object of an event that the
    inspection found to match, reached over events it passed over in time. *)
Lemma wait_loop_returns (end_time : Q) (events : list dict) (seen : nat)
    (resource : pyval) :
  loop end_time seen events = Ok resource ->
  exists k event,
    nth_error events k = Some event
    /\ dict_lookup event "object" = Some resource
    /\ has_condition resource condition_type condition_status = Ok true
    /\ Forall (passed_over condition_type condition_status) (firstn k events)
    /\ forall j, (j < k)%nat -> past (clock (seen + S j)) end_time = false.
Proof.
  revert seen. induction events as [|event rest IH]; intros seen;
    cbn [wait_loop]; [discriminate|].
  unfold dict_getitem.
  destruct (dict_lookup event "object") as [r|] eqn:Hobj; [|discriminate].
  cbn [bind].
  destruct (has_condition r condition_type condition_status) as [[|]|e]
    eqn:Hcond; cbn [bind]; [| |discriminate].
  - intros H. injection H as <-. exists 0%nat, event.
    repeat apply conj; auto. intros j Hj. lia.
  - destruct (past (clock (S seen)) end_time) eqn:Hpast; [discriminate|].
    intros H. destruct (IH _ H) as (k & ev & Hk & Ho & Hc & Hf & Ht).
    exists (S k), ev. repeat apply conj; auto.
    + cbn [firstn]. constructor; [|assumption]. now exists r.
    + intros [|j] Hj.
      * now rewrite Nat.add_1_r.
      * rewrite <- Nat.add_succ_comm. apply Ht. lia.
Qed.

(** A later deadline keeps a result. *)
Lemma wait_loop_later_deadline (end_time end_time' : Q) (events : list dict)
    (seen : nat) (resource : pyval) :
  (end_time <= end_time')%Q ->
  loop end_time seen events = Ok resource ->
  loop end_time' seen events = Ok resource.
Proof.
  intros Hle. revert seen. induction events as [|event rest IH]; intros seen;
    cbn [wait_loop]; [discriminate|].
  destruct (dict_getitem event "object") as [r|]; cbn [bind]; [|discriminate].
  destruct (has_condition r condition_type condition_status) as [[|]|e'];
    cbn [bind]; [auto| |discriminate].
  unfold past.
  destruct (Qle_bool (clock (S seen)) end_time) eqn:Hin; simpl; [|discriminate].
  apply Qle_bool_iff in Hin.
  assert (Qle_bool (clock (S seen)) end_time' = true) as ->
      by (apply Qle_bool_iff; eapply Qle_trans; eassumption).
  simpl. apply IH.
Qed.

End WaitLoopOutcomes.

(** X8: a document that [wait_for_resource_condition] returns is the object
    of a delivered event in which the inspection found the requested
    condition; the events before it were inspected without a match, none of
    them was of type ERROR, and the clock was not past the deadline when
    each of them had been handled. *)
Theorem wait_for_resource_condition_returns_only_matches
    (self : BaseCustomResourceClient) (clock : nat -> Q)
    (name condition_type : string) (condition_status : option string)
    (timeout : option Z) (namespace : option string) (resource : pyval) :
  outcome (wait_for_resource_condition self clock name condition_type
             condition_status timeout namespace) = Ok resource ->
  exists k event,
    nth_error (delivered_for self name namespace) k = Some event
    /\ dict_lookup event "object" = Some resource
    /\ has_condition resource condition_type
         (requested_status condition_status) = Ok true
    /\ Forall (passed_over condition_type (requested_status condition_status))
         (firstn k (delivered_for self name namespace))
    /\ existsb is_error_event (firstn k (delivered_for self name namespace))
       = false
    /\ forall j, (1 <= j <= k)%nat ->
                 past (clock j) (deadline clock timeout) = false.
Proof.
  rewrite wait_for_resource_condition_unfold. intros H.
  apply wait_loop_returns in H as (k & event & Hk & Ho & Hc & Hf & Ht).
  apply yield_events_nth in Hk as (Hk & Herr & Hfirst).
  exists k, event. rewrite Hfirst in Hf. repeat apply conj; auto.
  intros [|j] Hj; [lia|]. apply (Ht j). lia.
Qed.

(** The sandbox seen not ready, then ready: the document returned is that
    of the second event. *)
Lemma wait_for_resource_condition_returns_only_matches_witness :
  exists k event,
    nth_error pending_then_ready k = Some event
    /\ dict_lookup event "object" = Some (sandbox_with_ready "True")
    /\ has_condition (sandbox_with_ready "True") "Ready" "True" = Ok true
    /\ Forall (passed_over "Ready" "True") (firstn k pending_then_ready)
    /\ existsb is_error_event (firstn k pending_then_ready) = false
    /\ forall j, (1 <= j <= k)%nat ->
                 past (still_clock j) (deadline still_clock None) = false.
Proof.
  exact (wait_for_resource_condition_returns_only_matches
           (watching pending_then_ready) still_clock "test-sandbox" "Ready"
           None None None (sandbox_with_ready "True") eq_refl).
Defined.

(** X10: a larger timeout keeps a result: when the call returns a document
    with the timeout [t], it returns the same document with every timeout
    that is not smaller, on the same events and clock. *)
Theorem wait_for_resource_condition_larger_timeout
    (self : BaseCustomResourceClient) (clock : nat -> Q)
    (name condition_type : string) (condition_status : option string)
    (t t' : Z) (namespace : option string) (resource : pyval) :
  (t <= t')%Z ->
  outcome (wait_for_resource_condition self clock name condition_type
             condition_status (Some t) namespace) = Ok resource ->
  outcome (wait_for_resource_condition self clock name condition_type
             condition_status (Some t') namespace) = Ok resource.
Proof.
  intros Hle. rewrite !wait_for_resource_condition_unfold.
  apply wait_loop_later_deadline. unfold deadline.
  apply Qplus_le_r. now rewrite <- Zle_Qle.
Qed.

(** With the clock at 1000 from the first event on, timeouts of 1000 and of
    2000 seconds both let the second event through. *)
Lemma wait_for_resource_condition_larger_timeout_witness :
  outcome (wait_for_resource_condition (watching pending_then_ready)
             late_clock "test-sandbox" "Ready" None (Some 2000%Z) None)
  = Ok (sandbox_with_ready "True").
Proof.
  apply (wait_for_resource_condition_larger_timeout
           (watching pending_then_ready) late_clock "test-sandbox" "Ready"
           None 1000%Z 2000%Z None (sandbox_with_ready "True"));
    [lia | reflexivity].
Defined.

(** X11: whatever the outcome, the clock and the timeout,
    [wait_for_resource_condition] opens one watch, in the resolved namespace,
    selected by the field [metadata.name] alone; it passes neither a label
    selector nor its timeout on to the server. *)
Theorem wait_for_resource_condition_opens_one_watch
    (self : BaseCustomResourceClient) (clock : nat -> Q)
    (name condition_type : string) (condition_status : option string)
    (timeout : option Z) (namespace : option string) :
  sent (wait_for_resource_condition self clock name condition_type
          condition_status timeout namespace)
  = [watch_stream
       (self_api_group self) (self_api_version self)
       (py_or namespace (self_namespace self)) (self_plural self)
       None (Some ("metadata.name=" ++ name)) None].
Proof.
  unfold wait_for_resource_condition, watch_resources, sent. cbn [fst].
  now rewrite py_or_twice.
Qed.

(** X13: a first event that has the condition is returned whatever the
    clock reads and whatever the timeout is, a zero or negative one
    included: the deadline is not consulted before the first inspection. *)
Theorem wait_for_resource_condition_first_event
    (self : BaseCustomResourceClient) (clock : nat -> Q)
    (name condition_type : string) (condition_status : option string)
    (timeout : option Z) (namespace : option string)
    (event : dict) (after : list dict) (resource : pyval) :
  delivered_for self name namespace = event :: after ->
  matching_event condition_type (requested_status condition_status) event
  = true ->
  dict_lookup event "object" = Some resource ->
  outcome (wait_for_resource_condition self clock name condition_type
             condition_status timeout namespace) = Ok resource.
Proof.
  intros E Hmatch Hobj.
  rewrite wait_for_resource_condition_unfold, E. cbn [yield_events].
  now apply wait_loop_match_step.
Qed.

(** A sandbox that is ready already, waited for with a timeout of -1 while
    the clock reads 1000. *)
Lemma wait_for_resource_condition_first_event_witness :
  outcome (wait_for_resource_condition
             (watching [watch_event "ADDED" (sandbox_with_ready "True")])
             late_clock "test-sandbox" "Ready" (Some "True") (Some (-1)%Z) None)
  = Ok (sandbox_with_ready "True").
Proof.
  apply (wait_for_resource_condition_first_event
           (watching [watch_event "ADDED" (sandbox_with_ready "True")])
           late_clock "test-sandbox" "Ready" (Some "True") (Some (-1)%Z) None
           (watch_event "ADDED" (sandbox_with_ready "True")) []
           (sandbox_with_ready "True")); reflexivity.
Defined.

(** *** The inspection of a document *)

Lemma is_condition_iff (condition_type condition_status : string) (c : pyval) :
  is_condition condition_type condition_status c = true
  <-> exists d,
        c = PyDict d
        /\ dict_lookup d "type" = Some (PyStr condition_type)
        /\ dict_lookup d "status" = Some (PyStr condition_status).
Proof.
  split.
  - destruct c as [| | | | | |d]; simpl; try discriminate.
    destruct (dict_lookup d "type") as [[| | |t| | |]|] eqn:Ht;
      try discriminate.
    destruct (dict_lookup d "status") as [[| | |s| | |]|] eqn:Hs;
      try discriminate.
    intros H. split_andb H.
    apply String.eqb_eq in H0, H1. subst. now exists d.
  - intros (d & -> & Ht & Hs). simpl. rewrite Ht, Hs.
    now rewrite !String.eqb_refl.
Qed.

(** On a document that has a list at [status.conditions] the inspection is
    the inner loop over that list. *)
Lemma has_condition_scans (resource : pyval) (l : list pyval)
    (condition_type condition_status : string) :
  status_conditions resource = Some l ->
  has_condition resource condition_type condition_status
  = scan_conditions l condition_type condition_status.
Proof.
  unfold status_conditions, has_condition.
  destruct resource as [| | | | | |r]; try discriminate. simpl.
  unfold dict_mem, dict_getitem.
  destruct (dict_lookup r "status") as [[| | | | | |st]|]; try discriminate.
  simpl. unfold dict_mem, dict_getitem.
  destruct (dict_lookup st "conditions") as [[| | | |l'| |]|]; try discriminate.
  now intros [= ->].
Qed.

(** Entries that are objects without the requested pair are passed over. *)
Lemma scan_conditions_skips (before rest : list pyval)
    (condition_type condition_status : string) :
  forallb is_dict before = true ->
  existsb (is_condition condition_type condition_status) before = false ->
  scan_conditions (before ++ rest) condition_type condition_status
  = scan_conditions rest condition_type condition_status.
Proof.
  induction before as [|c before IH]; cbn [app forallb existsb];
    intros Hd Hn; [reflexivity|].
  split_andb Hd. apply orb_false_iff in Hn as [Hc Hn].
  destruct c as [| | | | | |d]; try discriminate.
  rewrite <- condition_test_is_condition in Hc. cbn [scan_conditions].
  simpl py_get. cbn [bind].
  destruct (py_eq_str (dict_get d "type" PyNone) condition_type); [|auto].
  simpl in Hc. rewrite Hc. auto.
Qed.

(** X14: on a well-formed document the inspection raises nothing, and it
    answers true exactly when the list at [status.conditions] has an object
    whose [type] and [status] are the two requested strings. *)
Theorem has_condition_finds_entry (resource : pyval)
    (condition_type condition_status : string) :
  well_formed_resource resource = true ->
  exists found,
    has_condition resource condition_type condition_status = Ok found
    /\ (found = true
        <-> exists l c d,
              status_conditions resource = Some l
              /\ In c l
              /\ c = PyDict d
              /\ dict_lookup d "type" = Some (PyStr condition_type)
              /\ dict_lookup d "status" = Some (PyStr condition_status)).
Proof.
  intros Hwf. rewrite has_condition_well_formed by assumption.
  eexists. split; [reflexivity|].
  unfold has_matching_condition.
  destruct (status_conditions resource) as [l|].
  - rewrite existsb_exists. split.
    + intros (c & Hin & Hc). apply is_condition_iff in Hc as (d & -> & Ht & Hs).
      now exists l, (PyDict d), d.
    + intros (l' & c & d & [= <-] & Hin & -> & Ht & Hs).
      exists (PyDict d). split; [assumption|].
      apply is_condition_iff. now exists d.
  - split; [discriminate|]. now intros (l & c & d & H & _).
Qed.

(** The document not ready has no [Ready=True] entry; the document ready
    has one. *)
Lemma has_condition_finds_entry_witness :
  exists found,
    has_condition (sandbox_with_ready "True") "Ready" "True" = Ok found
    /\ (found = true
        <-> exists l c d,
              status_conditions (sandbox_with_ready "True") = Some l
              /\ In c l
              /\ c = PyDict d
              /\ dict_lookup d "type" = Some (PyStr "Ready")
              /\ dict_lookup d "status" = Some (PyStr "True")).
Proof.
  exact (has_condition_finds_entry (sandbox_with_ready "True") "Ready" "True"
           eq_refl).
Defined.

(** X15: the first entry of [status.conditions] that has the requested pair
    or is not an object decides the inspection: after objects without the
    pair, an entry with the pair makes it answer true whatever follows, and
    an entry that is not an object makes it raise [AttributeError]. *)
Theorem has_condition_first_entry_decides (resource : pyval)
    (before after : list pyval) (c : pyval)
    (condition_type condition_status : string) :
  status_conditions resource = Some (before ++ c :: after)%list ->
  forallb is_dict before = true ->
  existsb (is_condition condition_type condition_status) before = false ->
  (is_condition condition_type condition_status c = true ->
   has_condition resource condition_type condition_status = Ok true)
  /\ (is_dict c = false ->
      has_condition resource condition_type condition_status
      = Raise AttributeError).
Proof.
  intros Hl Hd Hn.
  rewrite (has_condition_scans _ _ _ _ Hl), scan_conditions_skips
    by assumption.
  split.
  - intros Hc. destruct c as [| | | | | |d]; try discriminate.
    rewrite <- condition_test_is_condition in Hc. split_andb Hc.
    simpl. now rewrite Hc0, Hc1.
  - intros Hc. now destruct c.
Qed.

(** A [Ready=True] entry before a [None] entry is found; the [None] entry
    before it raises. *)
Lemma has_condition_first_entry_decides_witness :
  has_condition
    (PyDict [("status",
              PyDict [("conditions",
                       PyList [PyDict [("type", PyStr "Ready");
                                       ("status", PyStr "True")];
                               PyNone])])])
    "Ready" "True" = Ok true
  /\ has_condition
       (PyDict [("status",
                 PyDict [("conditions",
                          PyList [PyNone;
                                  PyDict [("type", PyStr "Ready");
                                          ("status", PyStr "True")]])])])
       "Ready" "True" = Raise AttributeError.
Proof.
  split.
  - apply (proj1 (has_condition_first_entry_decides
                    (PyDict [("status",
                              PyDict [("conditions",
                                       PyList [PyDict [("type", PyStr "Ready");
                                                       ("status", PyStr "True")];
                                               PyNone])])])
                    [] [PyNone]
                    (PyDict [("type", PyStr "Ready"); ("status", PyStr "True")])
                    "Ready" "True" eq_refl eq_refl eq_refl)).
    reflexivity.
  - apply (proj2 (has_condition_first_entry_decides
                    (PyDict [("status",
                              PyDict [("conditions",
                                       PyList [PyNone;
                                               PyDict [("type", PyStr "Ready");
                                                       ("status", PyStr "True")]])])])
                    []
                    [PyDict [("type", PyStr "Ready"); ("status", PyStr "True")]]
                    PyNone "Ready" "True" eq_refl eq_refl eq_refl)).
    reflexivity.
Defined.

(** *** The typed clients, continued *)

(** X17: the typed clients have no per-call namespace: the create, get and
    update methods of the three clients, and [delete_sandbox], each send one
    request, in the namespace given to the constructor, or else [default],
    to the group [agents.kruise.io], the version [v1alpha1] and the plural
    of the client.  An update sends the body it is given; for
    [update_sandbox] that is the dump of the model, on which nothing is set
    first. *)
Theorem typed_clients_use_configured_namespace
    (api : CustomObjectsApi) (configured : option string)
    (m : openkruise.model) (name : string) (body : pyval)
    (grace_period : option Z) :
  let ns := match configured with Some n => n | None => "default" end in
  let sandbox := openkruise.SandboxClient api configured in
  let sandboxset := openkruise.SandboxSetClient api configured in
  let sandboxclaim := openkruise.SandboxClaimClient api configured in
  let sandboxes := ("agents.kruise.io", "v1alpha1", "sandboxes") in
  let sandboxsets := ("agents.kruise.io", "v1alpha1", "sandboxsets") in
  let sandboxclaims := ("agents.kruise.io", "v1alpha1", "sandboxclaims") in
  (sent_to ns sandboxes (sent (openkruise.create_sandbox sandbox m))
   /\ sent_to ns sandboxes (sent (openkruise.get_sandbox sandbox name))
   /\ sent_to ns sandboxes (sent (openkruise.update_sandbox sandbox name m))
   /\ sent_to ns sandboxes
        (sent (openkruise.delete_sandbox sandbox name grace_period)))
  /\ (sent_to ns sandboxsets
        (sent (openkruise.create_sandboxset sandboxset m))
      /\ sent_to ns sandboxsets
           (sent (openkruise.get_sandboxset sandboxset name))
      /\ sent_to ns sandboxsets
           (sent (openkruise.update_sandboxset sandboxset name body)))
  /\ (sent_to ns sandboxclaims
        (sent (openkruise.create_sandboxclaim sandboxclaim m))
      /\ sent_to ns sandboxclaims
           (sent (openkruise.get_sandboxclaim sandboxclaim name))
      /\ sent_to ns sandboxclaims
           (sent (openkruise.update_sandboxclaim sandboxclaim name body)))
  /\ (sent_with_body (openkruise.model_dump m)
        (sent (openkruise.update_sandbox sandbox name m))
      /\ sent_with_body body
           (sent (openkruise.update_sandboxset sandboxset name body))
      /\ sent_with_body body
           (sent (openkruise.update_sandboxclaim sandboxclaim name body))).
Proof.
  cbv zeta. unfold sent_to, sent_with_body.
  repeat apply conj; eexists; repeat apply conj; reflexivity.
Qed.

(** *** Deleting *)

(** X18: a delete sends [V1DeleteOptions] whose grace period is the one
    given, a grace period of 0 included, and unset when none is given: the
    test is [is not None], unlike the truth test on the namespace.  The
    delete methods of the specialised clients and the typed
    [delete_sandbox] send the same options. *)
Theorem delete_keeps_grace_period
    (self : BaseCustomResourceClient) (name : string)
    (namespace : option string) (grace_period : option Z) :
  sent (delete_resource self name namespace grace_period)
  = [delete_namespaced_custom_object
       (self_api_group self) (self_api_version self)
       (py_or namespace (self_namespace self)) (self_plural self) name
       {| grace_period_seconds := grace_period |}]
  /\ sent (delete_sandbox self name namespace grace_period)
     = sent (delete_resource self name namespace grace_period)
  /\ sent (delete_sandboxset self name namespace grace_period)
     = sent (delete_resource self name namespace grace_period)
  /\ (forall typed : openkruise.client,
         sent (openkruise.delete_sandbox typed name grace_period)
         = [delete_namespaced_custom_object
              (openkruise.self_group typed) (openkruise.self_version typed)
              (openkruise.self_namespace typed) (openkruise.self_plural typed)
              name {| grace_period_seconds := grace_period |}]).
Proof.
  repeat apply conj; try reflexivity; try (now destruct grace_period).
Qed.
